(** * Personal Library Manager: the record store and its two front-ends

    A shallow embedding of [src/library_manager.py] (the text-menu front-end)
    and [src/app.py] (the web-form front-end), with the part of Python's
    [str], [list] and [json] that they call.

    Conventions.
    - A Python [str] is a [string]: a sequence of code points 0..255
      (Basic Latin and Latin-1 Supplement).  [lower], [isspace] and the JSON
      escapes are the Python ones on that range.
    - A book is the five-key dict that both [add_book] functions build; it
      is a record here, and the library is the Python list of them.
    - The backing file is [option string]: [None] when [open] raises
      [FileNotFoundError], else the text of the file.
    - The answers of the prompts and widgets ([Prompt.ask],
      [get_valid_input], [st.text_input], [st.button], ...) are arguments
      of the operation that asks for them.  On the page of [edit_book] of
      [app.py], where a form is built under a button, the argument is
      what started the run, and the widgets answer by it.
    - What an operation prints is a [message].
    - [load_library] is the value that the function returns;
      [Interpreter.load_library] adds the exceptions that it lets out,
      under the limits of the interpreter (the depth of the recursion,
      the digits that [int] converts).  Memory is not bounded.
    - The operations of [library_manager] take the answers of their
      prompts; those of [console] read them from the lines typed, and
      raise where rich does not render what they print. *)

From Stdlib Require Import ZArith List String Ascii Bool Lia.
From Stdlib Require Import Sorted Permutation.
From Stdlib Require Import DecimalString.
From Stdlib Require DecimalZ DecimalPos DecimalFacts.
From Stdlib Require Import Uint63 PrimFloat.
Import ListNotations.
Open Scope string_scope.
Open Scope Z_scope.

(** ** Python [str] *)

Module Py.

Definition code (c : ascii) : N := N_of_ascii c.

(** [str.lower] on one code point: A-Z, and the capital letters of Latin-1
    (U+00C0..U+00DE but the multiplication sign U+00D7), move up by 32. *)
Definition lower_char (c : ascii) : ascii :=
  let n := code c in
  if ((65 <=? n) && (n <=? 90) ||
      (192 <=? n) && (n <=? 222) && negb (n =? 215))%N
  then ascii_of_N (n + 32) else c.

Fixpoint lower (s : string) : string :=
  match s with
  | EmptyString => EmptyString
  | String c s' => String (lower_char c) (lower s')
  end.

(** [str.isspace] on one code point: TAB..CR, FS..US, SPACE, NEL, NBSP. *)
Definition isspace (c : ascii) : bool :=
  let n := code c in
  ((9 <=? n) && (n <=? 13) || (28 <=? n) && (n <=? 32) ||
   (n =? 133) || (n =? 160))%N.

Fixpoint lstrip (s : string) : string :=
  match s with
  | EmptyString => EmptyString
  | String c s' => if isspace c then lstrip s' else s
  end.

Fixpoint rstrip (s : string) : string :=
  match s with
  | EmptyString => EmptyString
  | String c s' =>
      match rstrip s' with
      | EmptyString => if isspace c then EmptyString else String c EmptyString
      | r => String c r
      end
  end.

(** [s.strip()] *)
Definition strip (s : string) : string := rstrip (lstrip s).

(** [needle in hay] *)
Fixpoint contains (needle hay : string) : bool :=
  if prefix needle hay then true
  else match hay with
       | EmptyString => false
       | String _ hay' => contains needle hay'
       end.

(** Truth value of a [str] and of an [int]. *)
Definition truthy (s : string) : bool := negb (s =? "")%string.
Definition truthy_int (z : Z) : bool := negb (z =? 0).

(** [a or b] on [str] and on [int]. *)
Definition or_str (a b : string) : string := if truthy a then a else b.
Definition or_int (a b : Z) : Z := if truthy_int a then a else b.

(** [str(z)] for an [int]. *)
Definition str_of_int (z : Z) : string := NilZero.string_of_int (Z.to_int z).

(** [str(s)] on a [str], as a conversion that cannot fail. *)
Definition str (s : string) : option string := Some s.

(** The digits of [int(s)] after the sign: decimal digits, with single
    underscores between them allowed.  [acc] is the value so far,
    [after_digit] whether the character before was a digit. *)
Fixpoint int_digits (s : string) (acc : Z) (after_digit : bool) : option Z :=
  match s with
  | EmptyString => if after_digit then Some acc else None
  | String c s' =>
      let n := code c in
      if ((48 <=? n) && (n <=? 57))%N
      then int_digits s' (10 * acc + Z.of_N (n - 48)) true
      else if (n =? 95)%N && after_digit then int_digits s' acc false
      else None
  end.

(** [int(s)] on a [str]: white space around, an optional sign, digits.
    [None] is [ValueError]. *)
Definition int (s : string) : option Z :=
  match strip s with
  | EmptyString => None
  | String c s' =>
      if (code c =? 45)%N then option_map Z.opp (int_digits s' 0 false)
      else if (code c =? 43)%N then int_digits s' 0 false
      else int_digits (String c s') 0 false
  end.

End Py.

(** ** The data model *)

Record Book : Type := mkBook {
  Title : string;
  Author : string;
  Year : Z;
  Genre : string;
  Read : bool
}.

Definition Library : Type := list Book.

(** [d1 == d2] on two such dicts. *)
Definition Book_eqb (a b : Book) : bool :=
  (Title a =? Title b)%string && (Author a =? Author b)%string &&
  (Year a =? Year b) && (Genre a =? Genre b)%string &&
  Bool.eqb (Read a) (Read b).

(** [book["Title"].lower() == title.lower()] *)
Definition title_matches (title : string) (book : Book) : bool :=
  (Py.lower (Title book) =? Py.lower title)%string.

(** [library.remove(book)]: deletes the first item equal to [book];
    [None] is Python's [ValueError] when there is none. *)
Fixpoint list_remove (book : Book) (library : Library) : option Library :=
  match library with
  | [] => None
  | b :: rest =>
      if Book_eqb b book then Some rest
      else option_map (cons b) (list_remove book rest)
  end.

(** What the front-ends print. *)
Inductive message : Type :=
  | BookAdded        (* "Book added successfully!" *)
  | BookRemoved      (* "Book removed successfully!" *)
  | BookUpdated      (* "Book updated successfully!" *)
  | BookNotFound     (* "Book not found." *)
  | FillAllFields    (* "Please fill in all fields." *)
  | Matching (results : list Book)   (* the table of matching books *)
  | NoMatchingBooks  (* "No matching books found." *)
  | Nothing.         (* no message: the button was not pressed *)

(** ** [json.dump(library, file, indent=4)] *)

Module Json.

Definition hex_digit (n : N) : ascii :=
  if (n <? 10)%N then ascii_of_N (48 + n) else ascii_of_N (87 + n).

(** ["\\u{0:04x}".format(n)] *)
Definition u_escape (n : N) : string :=
  String "\" (String "u"
    (String (hex_digit (n / 4096 mod 16)) (String (hex_digit (n / 256 mod 16))
    (String (hex_digit (n / 16 mod 16)) (String (hex_digit (n mod 16))
       EmptyString))))).

(** One character of [encode_basestring_ascii]: the short escapes of
    [ESCAPE_DCT], the printable ASCII characters as they are, everything
    else as [\uXXXX]. *)
Definition escape_char (c : ascii) : string :=
  let n := Py.code c in
  if (n =? 34)%N then String "\" (String c EmptyString)
  else if (n =? 92)%N then "\\"
  else if (n =? 8)%N then "\b"
  else if (n =? 12)%N then "\f"
  else if (n =? 10)%N then "\n"
  else if (n =? 13)%N then "\r"
  else if (n =? 9)%N then "\t"
  else if ((32 <=? n) && (n <=? 126))%N then String c EmptyString
  else u_escape n.

Fixpoint escape (s : string) : string :=
  match s with
  | EmptyString => EmptyString
  | String c s' => escape_char c ++ escape s'
  end.

Definition quote : string := String (ascii_of_N 34) EmptyString.
Definition newline : string := String (ascii_of_N 10) EmptyString.

(** [encode_basestring_ascii(s)] *)
Definition dump_str (s : string) : string := quote ++ escape s ++ quote.

Definition dump_bool (b : bool) : string := if b then "true" else "false".

Fixpoint spaces (n : nat) : string :=
  match n with O => EmptyString | S n' => String " " (spaces n') end.

(** ['\n' + _indent * level] with [indent=4] *)
Definition newline_indent (level : nat) : string :=
  newline ++ spaces (4 * level).

(** [_iterencode_dict] on a book, met at nesting level 1: the five keys in
    the order in which [add_book] inserted them. *)
Definition dump_book (b : Book) : string :=
  "{" ++ newline_indent 2 ++
  dump_str "Title" ++ ": " ++ dump_str (Title b) ++ "," ++ newline_indent 2 ++
  dump_str "Author" ++ ": " ++ dump_str (Author b) ++ "," ++ newline_indent 2 ++
  dump_str "Year" ++ ": " ++ Py.str_of_int (Year b) ++ "," ++
  newline_indent 2 ++
  dump_str "Genre" ++ ": " ++ dump_str (Genre b) ++ "," ++ newline_indent 2 ++
  dump_str "Read" ++ ": " ++ dump_bool (Read b) ++
  newline_indent 1 ++ "}".

(** The items of [_iterencode_list] after the first. *)
Fixpoint dump_more (books : list Book) : string :=
  match books with
  | [] => EmptyString
  | b :: rest => "," ++ newline_indent 1 ++ dump_book b ++ dump_more rest
  end.

(** [json.dumps(library, indent=4)] *)
Definition dumps (library : Library) : string :=
  match library with
  | [] => "[]"
  | b :: rest =>
      "[" ++ newline_indent 1 ++ dump_book b ++ dump_more rest ++
      newline_indent 0 ++ "]"
  end.

(** ** [json.load(file)] *)

(** Decoded JSON.  A decoded [str] is a list of code points, since a
    [\uXXXX] escape can name any of them; a [float] is kept as the text of
    its literal. *)
#[warnings="-register-all"]
Inductive value : Type :=
  | Null
  | Bool (b : bool)
  | Int (z : Z)
  | Float (literal : string)
  | Str (s : list N)
  | Array (items : list value)
  | Object (members : list (list N * value)).

(** The result of a scanner: the value and the text after it,
    [JSONDecodeError], or a recursion budget that ran out. *)
Inductive scan (A : Type) : Type :=
  | Found (a : A) (rest : string)
  | DecodeError
  | Exhausted.
Arguments Found {A} a rest.
Arguments DecodeError {A}.
Arguments Exhausted {A}.

Definition scan_map {A B : Type} (f : A -> B) (r : scan A) : scan B :=
  match r with
  | Found a rest => Found (f a) rest
  | DecodeError => DecodeError
  | Exhausted => Exhausted
  end.

Definition is_code (c : ascii) (n : N) : bool := (Py.code c =? n)%N.

(** [WHITESPACE]: space, tab, line feed, carriage return. *)
Definition is_ws (c : ascii) : bool :=
  is_code c 32 || is_code c 9 || is_code c 10 || is_code c 13.

Fixpoint skip_ws (s : string) : string :=
  match s with
  | EmptyString => EmptyString
  | String c s' => if is_ws c then skip_ws s' else s
  end.

Definition hex_value (c : ascii) : option N :=
  let n := Py.code c in
  if ((48 <=? n) && (n <=? 57))%N then Some (n - 48)%N
  else if ((97 <=? n) && (n <=? 102))%N then Some (n - 87)%N
  else if ((65 <=? n) && (n <=? 70))%N then Some (n - 55)%N
  else None.

(** [_decode_uXXXX]: four hexadecimal digits. *)
Definition decode_uXXXX (a b c d : ascii) : option N :=
  match hex_value a, hex_value b, hex_value c, hex_value d with
  | Some x, Some y, Some z, Some w => Some (((x * 16 + y) * 16 + z) * 16 + w)%N
  | _, _, _, _ => None
  end.

(** The table [BACKSLASH]. *)
Definition backslash (c : ascii) : option N :=
  if is_code c 34 then Some 34%N            (* quote *)
  else if is_code c 92 then Some 92%N       (* backslash *)
  else if is_code c 47 then Some 47%N       (* slash *)
  else if is_code c 98 then Some 8%N        (* backspace *)
  else if is_code c 102 then Some 12%N      (* form feed *)
  else if is_code c 110 then Some 10%N      (* line feed *)
  else if is_code c 114 then Some 13%N      (* carriage return *)
  else if is_code c 116 then Some 9%N       (* tab *)
  else None.

Definition high_surrogate (n : N) : bool := ((55296 <=? n) && (n <=? 56319))%N.
Definition low_surrogate (n : N) : bool := ((56320 <=? n) && (n <=? 57343))%N.

(** [scanstring(s, end, strict=True)], called after the opening quote. *)
Fixpoint scanstring (s : string) : scan (list N) :=
  match s with
  | EmptyString => DecodeError                 (* unterminated string *)
  | String c s1 =>
      if is_code c 34 then Found [] s1
      else if is_code c 92 then
        match s1 with
        | EmptyString => DecodeError           (* unterminated string *)
        | String e s2 =>
            if is_code e 117 then
              match s2 with
              | String h1 (String h2 (String h3 (String h4 s3))) =>
                  match decode_uXXXX h1 h2 h3 h4 with
                  | None => DecodeError        (* invalid \uXXXX escape *)
                  | Some uni =>
                      match s3 with
                      | String b1 (String b2 s4) =>
                          if high_surrogate uni && is_code b1 92 &&
                             is_code b2 117 then
                            match s4 with
                            | String k1 (String k2 (String k3
                                (String k4 s5))) =>
                                match decode_uXXXX k1 k2 k3 k4 with
                                | None => DecodeError
                                | Some uni2 =>
                                    if low_surrogate uni2 then
                                      scan_map
                                        (cons (65536 + (uni - 55296) * 1024
                                                 + (uni2 - 56320))%N)
                                        (scanstring s5)
                                    else scan_map (cons uni) (scanstring s3)
                                end
                            | _ => DecodeError
                            end
                          else scan_map (cons uni) (scanstring s3)
                      | _ => scan_map (cons uni) (scanstring s3)
                      end
                  end
              | _ => DecodeError               (* invalid \uXXXX escape *)
              end
            else
              match backslash e with
              | Some ch => scan_map (cons ch) (scanstring s2)
              | None => DecodeError            (* invalid \escape *)
              end
        end
      else if (Py.code c <? 32)%N then DecodeError   (* control character *)
      else scan_map (cons (Py.code c)) (scanstring s1)
  end.

Definition is_digit (c : ascii) : bool :=
  ((48 <=? Py.code c) && (Py.code c <=? 57))%N.

(** The decimal digit [c] put in front of [d]. *)
Definition push_digit (c : ascii) (d : Decimal.uint) : Decimal.uint :=
  match (Py.code c - 48)%N with
  | 0%N => Decimal.D0 d | 1%N => Decimal.D1 d | 2%N => Decimal.D2 d
  | 3%N => Decimal.D3 d | 4%N => Decimal.D4 d | 5%N => Decimal.D5 d
  | 6%N => Decimal.D6 d | 7%N => Decimal.D7 d | 8%N => Decimal.D8 d
  | _ => Decimal.D9 d
  end.

(** The longest run of decimal digits at the head of [s], and what
    follows it. *)
Fixpoint digits (s : string) : Decimal.uint * string :=
  match s with
  | EmptyString => (Decimal.Nil, EmptyString)
  | String c s' =>
      if is_digit c
      then let (d, rest) := digits s' in (push_digit c d, rest)
      else (Decimal.Nil, s)
  end.

(** The optional fraction of [NUMBER_RE], a dot and at least one digit:
    the text matched and what follows it. *)
Definition fraction (s : string) : string * string :=
  match s with
  | String c s' =>
      if is_code c 46 then
        match digits s' with
        | (Decimal.Nil, _) => (EmptyString, s)
        | (d, rest) => (String c (NilEmpty.string_of_uint d), rest)
        end
      else (EmptyString, s)
  | EmptyString => (EmptyString, s)
  end.

(** The optional exponent of [NUMBER_RE]: e or E, an optional sign and at
    least one digit. *)
Definition exponent (s : string) : string * string :=
  match s with
  | String e s' =>
      if is_code e 101 || is_code e 69 then
        match s' with
        | String sg s'' =>
            if is_code sg 45 || is_code sg 43 then
              match digits s'' with
              | (Decimal.Nil, _) => (EmptyString, s)
              | (d, rest) =>
                  (String e (String sg (NilEmpty.string_of_uint d)), rest)
              end
            else
              match digits s' with
              | (Decimal.Nil, _) => (EmptyString, s)
              | (d, rest) => (String e (NilEmpty.string_of_uint d), rest)
              end
        | EmptyString => (EmptyString, s)
        end
      else (EmptyString, s)
  | EmptyString => (EmptyString, s)
  end.

(** [NUMBER_RE.match]: an optional minus sign, then a single 0 or a run of
    digits that does not start with 0, then an optional fraction and an
    optional exponent; and the
    conversion that [_scan_once] does on its groups: [int(integer)] when
    there is neither fraction nor exponent, else a [float]. *)
Definition match_number (s : string) : option (value * string) :=
  let (negative, s1) :=
    match s with
    | String c s' => if is_code c 45 then (true, s') else (false, s)
    | EmptyString => (false, s)
    end in
  match s1 with
  | EmptyString => None
  | String c s2 =>
      if is_digit c then
        let (integer, s3) :=
          if is_code c 48 then (Decimal.D0 Decimal.Nil, s2) else digits s1 in
        let (frac, s4) := fraction s3 in
        let (exp, s5) := exponent s4 in
        match frac, exp with
        | EmptyString, EmptyString =>
            Some (Int (Z.of_int (if negative then Decimal.Neg integer
                                 else Decimal.Pos integer)), s5)
        | _, _ =>
            Some (Float ((if negative then "-" else "") ++
                         NilEmpty.string_of_uint integer ++ frac ++ exp), s5)
        end
      else None
  end.

(** [s[idx:idx + len(p)] == p]: the text after the prefix [p]. *)
Fixpoint after (p s : string) : option string :=
  match p with
  | EmptyString => Some s
  | String a p' =>
      match s with
      | String b s' => if Ascii.eqb a b then after p' s' else None
      | EmptyString => None
      end
  end.

Fixpoint key_eqb (a b : list N) : bool :=
  match a, b with
  | [], [] => true
  | x :: a', y :: b' => (x =? y)%N && key_eqb a' b'
  | _, _ => false
  end.

(** [d[key] = v] on a dict kept in insertion order. *)
Fixpoint dict_set (key : list N) (v : value) (d : list (list N * value))
  : list (list N * value) :=
  match d with
  | [] => [(key, v)]
  | (k, w) :: d' =>
      if key_eqb k key then (k, v) :: d' else (k, w) :: dict_set key v d'
  end.

(** [dict(pairs)] *)
Definition dict (pairs : list (list N * value)) : list (list N * value) :=
  fold_left (fun d kv => dict_set (fst kv) (snd kv) d) pairs [].

(** The head of [JSONArray], called after the bracket: an empty array, or
    the loop over the items. *)
Definition JSONArray (items : string -> scan (list value)) (s : string)
  : scan (list value) :=
  match skip_ws s with
  | String c r => if is_code c 93 then Found [] r else items (String c r)
  | EmptyString => items EmptyString
  end.

(** The head of [JSONObject], called after the brace: an empty object, or
    the loop over the members, entered after the quote of the first key. *)
Definition JSONObject (members : string -> scan (list (list N * value)))
  (s : string) : scan (list (list N * value)) :=
  match skip_ws s with
  | String c r =>
      if is_code c 125 then Found [] r
      else if is_code c 34 then members r
      else DecodeError              (* expecting property name *)
  | EmptyString => DecodeError
  end.

(** The body of [_scan_once], given the two loops. *)
Definition scan_value (members : string -> scan (list (list N * value)))
  (items : string -> scan (list value)) (s : string) : scan value :=
  match s with
  | EmptyString => DecodeError             (* StopIteration *)
  | String c s' =>
      if is_code c 34 then scan_map Str (scanstring s')
      else if is_code c 123 then
        scan_map (fun pairs => Object (dict pairs)) (JSONObject members s')
      else if is_code c 91 then scan_map Array (JSONArray items s')
      else
        match after "null" s, after "true" s, after "false" s with
        | Some r, _, _ => Found Null r
        | _, Some r, _ => Found (Bool true) r
        | _, _, Some r => Found (Bool false) r
        | None, None, None =>
            match match_number s with
            | Some (v, r) => Found v r
            | None =>
                match after "NaN" s, after "Infinity" s,
                      after "-Infinity" s with
                | Some r, _, _ => Found (Float "NaN") r
                | _, Some r, _ => Found (Float "Infinity") r
                | _, _, Some r => Found (Float "-Infinity") r
                | None, None, None => DecodeError   (* StopIteration *)
                end
            end
        end
  end.

(** One turn of the loop of [JSONArray]: a value, then the closing bracket
    or a comma and the other items. *)
Definition array_loop (scan_once : string -> scan value)
  (items : string -> scan (list value)) (s : string) : scan (list value) :=
  match scan_once s with
  | Found v rest =>
      match skip_ws rest with
      | String c r =>
          if is_code c 93 then Found [v] r
          else if is_code c 44 then scan_map (cons v) (items (skip_ws r))
          else DecodeError                 (* expecting ',' delimiter *)
      | EmptyString => DecodeError
      end
  | DecodeError => DecodeError             (* expecting value *)
  | Exhausted => Exhausted
  end.

(** One turn of the loop of [JSONObject], entered after the quote of a key:
    the key, a colon, a value, then the closing brace or a comma and the
    other members. *)
Definition object_loop (scan_once : string -> scan value)
  (members : string -> scan (list (list N * value))) (s : string)
  : scan (list (list N * value)) :=
  match scanstring s with
  | Found key rest =>
      match skip_ws rest with
      | String c r =>
          if is_code c 58 then
            match scan_once (skip_ws r) with
            | Found v rest' =>
                match skip_ws rest' with
                | String c' r' =>
                    if is_code c' 125 then Found [(key, v)] r'
                    else if is_code c' 44 then
                      match skip_ws r' with
                      | String q r'' =>
                          if is_code q 34
                          then scan_map (cons (key, v)) (members r'')
                          else DecodeError  (* expecting property name *)
                      | EmptyString => DecodeError
                      end
                    else DecodeError        (* expecting ',' delimiter *)
                | EmptyString => DecodeError
                end
            | DecodeError => DecodeError    (* expecting value *)
            | Exhausted => Exhausted
            end
          else DecodeError                  (* expecting ':' delimiter *)
      | EmptyString => DecodeError
      end
  | DecodeError => DecodeError
  | Exhausted => Exhausted
  end.

(** [_scan_once] and the two loops, which call each other.  [fuel] bounds
    the calls; [loads] gives enough of it. *)
Fixpoint scan_once (fuel : nat) (s : string) {struct fuel} : scan value :=
  match fuel with
  | O => Exhausted
  | S fuel' => scan_value (object_members fuel') (array_items fuel') s
  end

with array_items (fuel : nat) (s : string) {struct fuel} : scan (list value) :=
  match fuel with
  | O => Exhausted
  | S fuel' => array_loop (scan_once fuel') (array_items fuel') s
  end

with object_members (fuel : nat) (s : string) {struct fuel}
  : scan (list (list N * value)) :=
  match fuel with
  | O => Exhausted
  | S fuel' => object_loop (scan_once fuel') (object_members fuel') s
  end.

(** The budget that [loads] gives [scan_once] on a text: no scan of it
    runs out of it ([scan_once_budget]). *)
Definition budget (s : string) : nat := 2 * String.length s + 1.

(** [json.loads(s)]: [None] is [JSONDecodeError]. *)
Definition loads (s : string) : option value :=
  match scan_once (budget s) (skip_ws s) with
  | Found v rest =>
      match skip_ws rest with
      | EmptyString => Some v
      | String _ _ => None                      (* extra data *)
      end
  | DecodeError => None
  | Exhausted => None
  end.

(** The decoded form of a book and of a library. *)
Definition text (s : string) : list N :=
  map Py.code (list_ascii_of_string s).

Definition of_book (b : Book) : value :=
  Object [ (text "Title", Str (text (Title b)));
           (text "Author", Str (text (Author b)));
           (text "Year", Int (Year b));
           (text "Genre", Str (text (Genre b)));
           (text "Read", Bool (Read b)) ].

Definition of_library (library : Library) : value :=
  Array (map of_book library).

(** The way back, for a value of exactly that shape and with every code
    point in the range of [string]. *)
Fixpoint as_text (s : list N) : option string :=
  match s with
  | [] => Some EmptyString
  | n :: s' =>
      if (n <? 256)%N then option_map (String (ascii_of_N n)) (as_text s')
      else None
  end.

Definition as_book (v : value) : option Book :=
  match v with
  | Object [(k1, Str t); (k2, Str a); (k3, Int y); (k4, Str g);
            (k5, Bool r)] =>
      if key_eqb k1 (text "Title") && key_eqb k2 (text "Author") &&
         key_eqb k3 (text "Year") && key_eqb k4 (text "Genre") &&
         key_eqb k5 (text "Read")
      then match as_text t, as_text a, as_text g with
           | Some t', Some a', Some g' => Some (mkBook t' a' y g' r)
           | _, _, _ => None
           end
      else None
  | _ => None
  end.

Fixpoint as_books (items : list value) : option Library :=
  match items with
  | [] => Some []
  | v :: items' =>
      match as_book v, as_books items' with
      | Some b, Some l => Some (b :: l)
      | _, _ => None
      end
  end.

Definition as_library (v : value) : option Library :=
  match v with
  | Array items => as_books items
  | _ => None
  end.

End Json.

(** ** What both front-ends share

    [load_library], [save_library] and the computation of
    [display_statistics] are the same text in both files. *)

(** [load_library()], when it returns: the decoded content of the file,
    whatever it is; the empty list on [FileNotFoundError] and on
    [JSONDecodeError].  The exceptions that it lets out are those of
    [Interpreter.load_library] below. *)
Definition load_library (file : option string) : Json.value :=
  match file with
  | None => Json.Array []
  | Some content =>
      match Json.loads content with
      | Some v => v
      | None => Json.Array []
      end
  end.

(** [save_library(library)]: the file after it. *)
Definition save_library (library : Library) : option string :=
  Some (Json.dumps library).

(** A session: the list that [main] holds, and the backing file. *)
Record session : Type := mkSession {
  library : Library;
  file : option string
}.

(** A Python number: the statistics are an [int] or a [float]. *)
Inductive number : Type :=
  | PyInt (z : Z)
  | PyFloat (f : float).

(** [float(z)], exact for [0 <= z < 2^53]. *)
Definition float_of_int (z : Z) : float :=
  PrimFloat.of_uint63 (Uint63.of_Z z).

(** [a / b] on two [int]: [None] is [ZeroDivisionError]. *)
Definition truediv (a b : Z) : option float :=
  if b =? 0 then None
  else Some (PrimFloat.div (float_of_int a) (float_of_int b)).

(** [sum(1 for book in library if book["Read"])] *)
Definition count_read (library : Library) : Z :=
  fold_left Z.add (map (fun _ : Book => 1) (filter Read library)) 0.

Record statistics : Type := mkStatistics {
  total_books : Z;
  read_books : Z;
  percentage_read : number
}.

(** [display_statistics(library)]: its three locals; [None] is an
    exception. *)
Definition display_statistics (library : Library) : option statistics :=
  let total := Z.of_nat (List.length library) in
  let read := count_read library in
  if total >? 0 then
    match truediv read total with
    | Some q =>
        Some (mkStatistics total read
                (PyFloat (PrimFloat.mul q (float_of_int 100))))
    | None => None
    end
  else Some (mkStatistics total read (PyInt 0)).

(** [... .strip().lower() == "yes"] *)
Definition said_yes (answer : string) : bool :=
  (Py.lower (Py.strip answer) =? "yes")%string.

(** ** What [load_library] lets out

    [load_library] above is the value that the function returns.  The
    interpreter also raises, and the [except] clause of [load_library]
    names two exceptions only.  This module is [load_library] with the
    exceptions of [open], of [read] and of [json.load], under the limits
    of the interpreter. *)

Module Interpreter.

Inductive exception : Type :=
  | FileNotFoundError
  | PermissionError      (* [open]: the file may not be read *)
  | IsADirectoryError    (* [open]: the name is that of a directory *)
  | UnicodeDecodeError   (* [read]: the bytes are not text in the
                            encoding of the locale *)
  | JSONDecodeError
  | RecursionError       (* arrays and objects nested too deep *)
  | ValueError.          (* an integer of too many digits *)

Inductive outcome (A : Type) : Type :=
  | Returns (a : A)
  | Raises (e : exception).
Arguments Returns {A} a.
Arguments Raises {A} e.

(** The limits of the interpreter.  [recursion] is the number of arrays
    and objects, one inside the other, that the decoder may enter: what
    the recursion limit leaves when [json.load] is called.
    [int_max_str_digits] is [sys.get_int_max_str_digits()], 4300 unless
    changed, 0 for no limit (as in the versions of Python that have
    none). *)
Record limits : Type := mkLimits {
  recursion : nat;
  int_max_str_digits : nat
}.

(** The result of a scanner: the value and the text after it, an
    exception, or a budget that ran out. *)
Inductive run (A : Type) : Type :=
  | Scanned (a : A) (rest : string)
  | Raised (e : exception)
  | OutOfBudget.
Arguments Scanned {A} a rest.
Arguments Raised {A} e.
Arguments OutOfBudget {A}.

Definition run_map {A B : Type} (f : A -> B) (r : run A) : run B :=
  match r with
  | Scanned a rest => Scanned (f a) rest
  | Raised e => Raised e
  | OutOfBudget => OutOfBudget
  end.

(** A scanner that neither nests nor converts an integer: [scanstring]. *)
Definition of_scan {A : Type} (r : Json.scan A) : run A :=
  match r with
  | Json.Found a rest => Scanned a rest
  | Json.DecodeError => Raised JSONDecodeError
  | Json.Exhausted => OutOfBudget
  end.

(** The digits of the literal of a JSON integer, which has no leading
    zero: those of [str(abs(z))]. *)
Definition digits_of (z : Z) : nat :=
  String.length (Py.str_of_int (Z.abs z)).

(** [int(integer)] raises [ValueError] on more than 640 digits when there
    is a limit and the digits are more than the limit. *)
Definition too_long (lim : limits) (z : Z) : bool :=
  ((640 <? digits_of z) && (0 <? int_max_str_digits lim) &&
   (int_max_str_digits lim <? digits_of z))%nat.

(** The head of [JSONArray] and of [JSONObject], as in [Json]. *)
Definition JSONArray (items : string -> run (list Json.value)) (s : string)
  : run (list Json.value) :=
  match Json.skip_ws s with
  | String c r =>
      if Json.is_code c 93 then Scanned [] r else items (String c r)
  | EmptyString => items EmptyString
  end.

Definition JSONObject (members : string -> run (list (list N * Json.value)))
  (s : string) : run (list (list N * Json.value)) :=
  match Json.skip_ws s with
  | String c r =>
      if Json.is_code c 125 then Scanned [] r
      else if Json.is_code c 34 then members r
      else Raised JSONDecodeError
  | EmptyString => Raised JSONDecodeError
  end.

(** The body of [_scan_once] with [depth] arrays and objects left to
    enter; [members] and [items] are the loops one level down.  A string,
    a constant and a number are scanned as in [Json.scan_value], which
    does not call its loops on them. *)
Definition scan_value (lim : limits) (depth : nat)
  (members : string -> run (list (list N * Json.value)))
  (items : string -> run (list Json.value)) (s : string) : run Json.value :=
  match s with
  | EmptyString => Raised JSONDecodeError
  | String c s' =>
      if Json.is_code c 123 then
        match depth with
        | O => Raised RecursionError
        | S _ =>
            run_map (fun pairs => Json.Object (Json.dict pairs))
                    (JSONObject members s')
        end
      else if Json.is_code c 91 then
        match depth with
        | O => Raised RecursionError
        | S _ => run_map Json.Array (JSONArray items s')
        end
      else
        match Json.scan_value (fun _ => Json.DecodeError)
                (fun _ => Json.DecodeError) s with
        | Json.Found (Json.Int z) rest =>
            if too_long lim z then Raised ValueError
            else Scanned (Json.Int z) rest
        | r => of_scan r
        end
  end.

(** One turn of the loop of [JSONArray] and of [JSONObject], as in
    [Json]. *)
Definition array_loop (scan_once : string -> run Json.value)
  (items : string -> run (list Json.value)) (s : string)
  : run (list Json.value) :=
  match scan_once s with
  | Scanned v rest =>
      match Json.skip_ws rest with
      | String c r =>
          if Json.is_code c 93 then Scanned [v] r
          else if Json.is_code c 44
          then run_map (cons v) (items (Json.skip_ws r))
          else Raised JSONDecodeError
      | EmptyString => Raised JSONDecodeError
      end
  | Raised e => Raised e
  | OutOfBudget => OutOfBudget
  end.

Definition object_loop (scan_once : string -> run Json.value)
  (members : string -> run (list (list N * Json.value))) (s : string)
  : run (list (list N * Json.value)) :=
  match of_scan (Json.scanstring s) with
  | Scanned key rest =>
      match Json.skip_ws rest with
      | String c r =>
          if Json.is_code c 58 then
            match scan_once (Json.skip_ws r) with
            | Scanned v rest' =>
                match Json.skip_ws rest' with
                | String c' r' =>
                    if Json.is_code c' 125 then Scanned [(key, v)] r'
                    else if Json.is_code c' 44 then
                      match Json.skip_ws r' with
                      | String q r'' =>
                          if Json.is_code q 34
                          then run_map (cons (key, v)) (members r'')
                          else Raised JSONDecodeError
                      | EmptyString => Raised JSONDecodeError
                      end
                    else Raised JSONDecodeError
                | EmptyString => Raised JSONDecodeError
                end
            | Raised e => Raised e
            | OutOfBudget => OutOfBudget
            end
          else Raised JSONDecodeError
      | EmptyString => Raised JSONDecodeError
      end
  | Raised e => Raised e
  | OutOfBudget => OutOfBudget
  end.

(** [_scan_once] and the two loops with [depth] levels left; the values
    of an array or object are scanned one level down. *)
Fixpoint scan_once (lim : limits) (fuel depth : nat) (s : string)
  {struct fuel} : run Json.value :=
  match fuel with
  | O => OutOfBudget
  | S fuel' =>
      scan_value lim depth (object_members lim fuel' (Nat.pred depth))
        (array_items lim fuel' (Nat.pred depth)) s
  end

with array_items (lim : limits) (fuel depth : nat) (s : string)
  {struct fuel} : run (list Json.value) :=
  match fuel with
  | O => OutOfBudget
  | S fuel' =>
      array_loop (scan_once lim fuel' depth) (array_items lim fuel' depth) s
  end

with object_members (lim : limits) (fuel depth : nat) (s : string)
  {struct fuel} : run (list (list N * Json.value)) :=
  match fuel with
  | O => OutOfBudget
  | S fuel' =>
      object_loop (scan_once lim fuel' depth)
        (object_members lim fuel' depth) s
  end.

(** [json.loads(s)] under the limits.  The budget of [Json.loads] is
    enough here too ([scan_once_within_budget]). *)
Definition loads (lim : limits) (s : string) : outcome Json.value :=
  match scan_once lim (Json.budget s) (recursion lim) (Json.skip_ws s) with
  | Scanned v rest =>
      match Json.skip_ws rest with
      | EmptyString => Returns v
      | String _ _ => Raises JSONDecodeError          (* extra data *)
      end
  | Raised e => Raises e
  | OutOfBudget => Raises RecursionError
  end.

(** [except (FileNotFoundError, json.JSONDecodeError)] *)
Definition caught (e : exception) : bool :=
  match e with
  | FileNotFoundError | JSONDecodeError => true
  | _ => false
  end.

(** [load_library()]: [opened] is what [open(LIBRARY_FILE, "r")] and the
    [read] of [json.load] give, the text of the file or the exception
    they raise. *)
Definition load_library (lim : limits) (opened : outcome string)
  : outcome Json.value :=
  match match opened with
        | Returns content => loads lim content
        | Raises e => Raises e
        end with
  | Returns v => Returns v
  | Raises e => if caught e then Returns (Json.Array []) else Raises e
  end.

(** [open] on the file of a session: the text, or [FileNotFoundError]. *)
Definition opened (file : option string) : outcome string :=
  match file with
  | Some content => Returns content
  | None => Raises FileNotFoundError
  end.

End Interpreter.

(** ** [library_manager.py], the text-menu front-end

    The arguments are what [Prompt.ask] and [get_valid_input] return,
    when they return; the prompts themselves, and what they raise, are
    those of [console] below. *)

Module library_manager.

Definition add_book (library : Library) (title author : string) (year : Z)
  (genre answer : string) : Library * message :=
  let read_status := said_yes answer in
  ((library ++ [mkBook title author year genre read_status])%list, BookAdded).

(** The loop of [remove_book] over the books not yet visited; [None] is
    the [ValueError] of [list.remove]. *)
Fixpoint remove_loop (library : Library) (title : string) (rest : list Book)
  : option (Library * message) :=
  match rest with
  | [] => Some (library, BookNotFound)
  | book :: rest' =>
      if title_matches title book then
        match list_remove book library with
        | Some library' => Some (library', BookRemoved)
        | None => None
        end
      else remove_loop library title rest'
  end.

Definition remove_book (library : Library) (title : string)
  : option (Library * message) :=
  remove_loop library title library.

(** The five assignments of [edit_book] on the book found. *)
Definition update (book : Book) (new_title new_author : string)
  (new_year : Z) (new_genre answer : string) : Book :=
  {| Title := Py.or_str new_title (Title book);
     Author := Py.or_str new_author (Author book);
     Year := Py.or_int new_year (Year book);
     Genre := Py.or_str new_genre (Genre book);
     Read := said_yes answer |}.

Fixpoint edit_book (library : Library) (title new_title new_author : string)
  (new_year : Z) (new_genre answer : string) : Library * message :=
  match library with
  | [] => ([], BookNotFound)
  | book :: rest =>
      if title_matches title book then
        (update book new_title new_author new_year new_genre answer :: rest,
         BookUpdated)
      else
        let (rest', m) :=
          edit_book rest title new_title new_author new_year new_genre answer
        in (book :: rest', m)
  end.

(** The answer to "Search by": "1" or "2". *)
Inductive search_choice : Type := ByTitle | ByAuthor.

Definition search_book (library : Library) (choice : search_choice)
  (term : string) : message :=
  let query := Py.lower (Py.strip term) in
  let results :=
    filter (fun book => Py.contains query (Py.lower (Title book)) ||
                        Py.contains query (Py.lower (Author book)))
           library in
  match results with
  | [] => NoMatchingBooks
  | _ => Matching results
  end.

(** The choices of the menu of [main], with the answers to the prompts that
    follow each. *)
Inductive choice : Type :=
  | Add (title author : string) (year : Z) (genre answer : string)
  | Remove (title : string)
  | Edit (title new_title new_author : string) (new_year : Z)
         (new_genre answer : string)
  | Search (by_field : search_choice) (term : string)
  | Display
  | Statistics
  | Sort (sort_by : string)
  | Exit.

(** One turn of the loop of [main] on a choice other than [Exit]; [None] is
    an exception that ends the program. *)
Definition turn (st : session) (c : choice) : option session :=
  match c with
  | Add title author year genre answer =>
      Some (mkSession
              (fst (add_book (library st) title author year genre answer))
              (file st))
  | Remove title =>
      option_map (fun r => mkSession (fst r) (file st))
                 (remove_book (library st) title)
  | Edit title new_title new_author new_year new_genre answer =>
      Some (mkSession
              (fst (edit_book (library st) title new_title new_author
                              new_year new_genre answer))
              (file st))
  | Search _ _ | Display | Statistics | Sort _ | Exit => Some st
  end.

(** The loop of [main]: [Exit] saves and leaves. *)
Fixpoint loop (st : session) (choices : list choice) : option session :=
  match choices with
  | [] => Some st
  | Exit :: _ => Some (mkSession (library st) (save_library (library st)))
  | c :: rest =>
      match turn st c with
      | Some st' => loop st' rest
      | None => None
      end
  end.

(** [main()], started on a file whose content is a list of books as
    [add_book] builds them (or on none, or on one that does not decode).
    [None] is an exception, or a file of another content, which this
    model does not follow. *)
Definition main (file0 : option string) (choices : list choice)
  : option session :=
  match Json.as_library (load_library file0) with
  | Some library0 => loop (mkSession library0 file0) choices
  | None => None
  end.

(** The answer to "Sort by": "Title", "Author", "Year" or "Genre". *)
Inductive sort_key : Type := SortTitle | SortAuthor | SortYear | SortGenre.

(** [x[sort_by] < y[sort_by]]: the order of [str] is the lexicographic
    order of the code points, the order of [int] the usual one. *)
Definition key_lt (sort_by : sort_key) (x y : Book) : bool :=
  match sort_by with
  | SortTitle => String.ltb (Title x) (Title y)
  | SortAuthor => String.ltb (Author x) (Author y)
  | SortYear => Year x <? Year y
  | SortGenre => String.ltb (Genre x) (Genre y)
  end.

(** [sorted(library, key=lambda x: x[sort_by])], a stable sort that
    compares keys with [<]: each book, from the last to the first, is put
    in front of the books sorted so far that are not smaller than it. *)
Fixpoint insert (sort_by : sort_key) (x : Book) (books : list Book)
  : list Book :=
  match books with
  | [] => [x]
  | y :: books' =>
      if key_lt sort_by y x then y :: insert sort_by x books'
      else x :: books
  end.

Definition sorted (library : Library) (sort_by : sort_key) : list Book :=
  fold_right (insert sort_by) [] library.

(** A row of the table: No., Title, Author, Year, Genre, Status. *)
Definition row : Type := (string * string * string * string * string * string).

(** The rows that [for i, book in enumerate(books, i)] adds. *)
Fixpoint rows (i : Z) (books : list Book) : list row :=
  match books with
  | [] => []
  | book :: books' =>
      (Py.str_of_int i, Title book, Author book, Py.str_of_int (Year book),
       Genre book, if Read book then "Read" else "Unread")
      :: rows (i + 1) books'
  end.

(** What [display_books] prints. *)
Inductive display : Type :=
  | LibraryIsEmpty               (* "Your library is empty." *)
  | Table (table : list row).

Definition display_books (library : Library) (sort_by : option sort_key)
  : display :=
  match library with
  | [] => LibraryIsEmpty
  | _ =>
      Table (rows 1 (match sort_by with
                     | Some key => sorted library key
                     | None => library
                     end))
  end.

End library_manager.

(** ** The prompts of [library_manager.py]

    The same operations, reading their answers from the lines typed at the
    console.  [None] is an exception: [EOFError] when the lines run out,
    [MarkupError] when a text does not render, or what the operation
    raises. *)

Module console.

Notation "' p <- c1 ;; c2" :=
  (match c1 with Some p => c2 | None => None end)
  (at level 61, p pattern, c1 at next level, right associativity).

(** [Prompt.ask(prompt)] and [Prompt.ask(prompt, choices=...)] of rich: the
    line typed, trimmed; with choices, asked again until it is one of
    them. *)
Fixpoint ask (choices : option (list string)) (lines : list string)
  : option (string * list string) :=
  match lines with
  | [] => None
  | line :: rest =>
      let value := Py.strip line in
      match choices with
      | None => Some (value, rest)
      | Some allowed =>
          if existsb (String.eqb value) allowed then Some (value, rest)
          else ask choices rest
      end
  end.

(** [get_valid_input(prompt, input_type)]: asks until [input_type] accepts
    the answer. *)
Fixpoint get_valid_input {A : Type} (input_type : string -> option A)
  (lines : list string) : option (A * list string) :=
  match lines with
  | [] => None
  | line :: rest =>
      match input_type (Py.strip line) with
      | Some value => Some (value, rest)
      | None => get_valid_input input_type rest
      end
  end.

Definition add_book (library : Library) (lines : list string)
  : option (Library * message * list string) :=
  ' (title, lines) <- get_valid_input Py.str lines ;;
  ' (author, lines) <- get_valid_input Py.str lines ;;
  ' (year, lines) <- get_valid_input Py.int lines ;;
  ' (genre, lines) <- get_valid_input Py.str lines ;;
  ' (answer, lines) <- get_valid_input Py.str lines ;;
  Some (library_manager.add_book library title author year genre answer,
        lines).

Definition remove_book (library : Library) (lines : list string)
  : option (Library * message * list string) :=
  ' (title, lines) <- ask None lines ;;
  ' result <- library_manager.remove_book library title ;;
  Some (result, lines).

(** What is printed with a field of a book in it goes through the markup
    of rich, which raises [MarkupError] on some texts (a closing tag that
    closes nothing, for one).  rich is no part of this repository:
    [renders] tells the texts that it renders, and stays a parameter.
    The texts that the program prints as they are written in it do
    render. *)
Section Rich.

Variable renders : string -> bool.

(** [console.print(text)], and the prompt of a [Prompt.ask]: [None] is
    [MarkupError]. *)
Definition markup (text : string) : option unit :=
  if renders text then Some tt else None.

(** [get_valid_input(prompt, input_type)] with a prompt that holds a
    field: the prompt is rendered before a line is read. *)
Definition prompted {A : Type} (prompt : string)
  (input_type : string -> option A) (lines : list string)
  : option (A * list string) :=
  ' tt <- markup prompt ;;
  get_valid_input input_type lines.

(** [edit_book]: the panel and the five prompts come only when a book is
    found, and show the fields of the book as they were. *)
Definition edit_book (library : Library) (lines : list string)
  : option (Library * message * list string) :=
  ' (title, lines) <- ask None lines ;;
  match find (title_matches title) library with
  | Some book =>
      ' tt <- markup ("Editing book: [bold]" ++ Title book ++ "[/bold]") ;;
      ' (new_title, lines) <-
        prompted ("Enter new title (" ++ Title book ++ "): ") Py.str lines ;;
      ' (new_author, lines) <-
        prompted ("Enter new author (" ++ Author book ++ "): ") Py.str
          lines ;;
      ' (new_year, lines) <-
        prompted ("Enter new publication year (" ++
                  Py.str_of_int (Year book) ++ "): ") Py.int lines ;;
      ' (new_genre, lines) <-
        prompted ("Enter new genre (" ++ Genre book ++ "): ") Py.str lines ;;
      ' (answer, lines) <-
        prompted ("Have you read this book? (yes/no) (" ++
                  (if Read book then "Read" else "Unread") ++ "): ")
          Py.str lines ;;
      Some (library_manager.edit_book library title new_title new_author
              new_year new_genre answer, lines)
  | None => Some (library, BookNotFound, lines)
  end.

(** The cells of a row, each of them rendered when the table is
    printed. *)
Definition cells (r : library_manager.row) : list string :=
  let '(number, title, author, year, genre, status) := r in
  [number; title; author; year; genre; status].

(** [console.print(table)] *)
Definition print_table (table : list library_manager.row) : option unit :=
  if forallb (fun r => forallb renders (cells r)) table then Some tt
  else None.

(** [search_book]: the table of the results is printed when there are
    some. *)
Definition search_book (library : Library) (lines : list string)
  : option (message * list string) :=
  ' (choice, lines) <- ask (Some ["1"; "2"]) lines ;;
  ' (term, lines) <- ask None lines ;;
  match library_manager.search_book library
          (if (choice =? "1")%string then library_manager.ByTitle
           else library_manager.ByAuthor) term with
  | Matching results =>
      ' tt <- print_table (library_manager.rows 1 results) ;;
      Some (Matching results, lines)
  | msg => Some (msg, lines)
  end.

(** [display_books], printed. *)
Definition display_books (library : Library)
  (sort_by : option library_manager.sort_key)
  : option library_manager.display :=
  match library_manager.display_books library sort_by with
  | library_manager.Table table =>
      ' tt <- print_table table ;;
      Some (library_manager.Table table)
  | library_manager.LibraryIsEmpty => Some library_manager.LibraryIsEmpty
  end.

(** The key that an answer to "Sort by" names. *)
Definition sort_key_of (sort_by : string) : library_manager.sort_key :=
  if (sort_by =? "Title")%string then library_manager.SortTitle
  else if (sort_by =? "Author")%string then library_manager.SortAuthor
  else if (sort_by =? "Year")%string then library_manager.SortYear
  else library_manager.SortGenre.

(** What a turn of the loop of [main] prints. *)
Inductive output : Type :=
  | Said (msg : message)
  | Showed (table : library_manager.display)
  | Counted (stats : statistics)
  | Farewell                     (* "Library saved to file. Goodbye!" *)
  | Silence.

(** One turn of the loop of [main] after the choice is read: the session,
    what is printed, the lines left, and whether the loop ends. *)
Definition turn (choice : string) (st : session) (lines : list string)
  : option (session * output * list string * bool) :=
  if (choice =? "1")%string then
    ' (library', msg, lines) <- add_book (library st) lines ;;
    Some (mkSession library' (file st), Said msg, lines, false)
  else if (choice =? "2")%string then
    ' (library', msg, lines) <- remove_book (library st) lines ;;
    Some (mkSession library' (file st), Said msg, lines, false)
  else if (choice =? "3")%string then
    ' (library', msg, lines) <- edit_book (library st) lines ;;
    Some (mkSession library' (file st), Said msg, lines, false)
  else if (choice =? "4")%string then
    ' (msg, lines) <- search_book (library st) lines ;;
    Some (st, Said msg, lines, false)
  else if (choice =? "5")%string then
    ' table <- display_books (library st) None ;;
    Some (st, Showed table, lines, false)
  else if (choice =? "6")%string then
    ' stats <- display_statistics (library st) ;;
    Some (st, Counted stats, lines, false)
  else if (choice =? "7")%string then
    ' (sort_by, lines) <-
      ask (Some ["Title"; "Author"; "Year"; "Genre"]) lines ;;
    ' table <- display_books (library st) (Some (sort_key_of sort_by)) ;;
    Some (st, Showed table, lines, false)
  else if (choice =? "8")%string then
    Some (mkSession (library st) (save_library (library st)), Farewell,
          lines, true)
  else Some (st, Silence, lines, false).

(** How the loop of [main] ends: by Exit, with what it printed; by an
    exception; or, in this model only, for want of turns. *)
Inductive ending : Type :=
  | Goodbye (st : session) (printed : list output)
  | Raised
  | Unfinished.

(** The loop of [main], for at most [turns] turns.  Every turn reads a
    line, so that one turn more than there are lines is enough
    ([loop_finishes]). *)
Fixpoint loop (turns : nat) (st : session) (lines : list string) : ending :=
  match turns with
  | O => Unfinished
  | S turns' =>
      match ask (Some ["1"; "2"; "3"; "4"; "5"; "6"; "7"; "8"]) lines with
      | None => Raised
      | Some (choice, lines) =>
          match turn choice st lines with
          | None => Raised
          | Some (st', out, lines, true) => Goodbye st' [out]
          | Some (st', out, lines, false) =>
              match loop turns' st' lines with
              | Goodbye st'' printed => Goodbye st'' (out :: printed)
              | Raised => Raised
              | Unfinished => Unfinished
              end
          end
      end
  end.

End Rich.

End console.

(** ** [app.py], the web-form front-end

    The arguments are what the widgets return in one run of the script:
    the text of a [st.text_input], the number of a [st.number_input], the
    state of a [st.checkbox], and whether a [st.button] or a
    [st.form_submit_button] was pressed. *)

Module app.

Definition add_book (st : session) (title author : string) (year : Z)
  (genre : string) (read_status submitted : bool) : session * message :=
  if submitted then
    if Py.truthy title && Py.truthy author && Py.truthy genre then
      let library' :=
        (library st ++ [mkBook title author year genre read_status])%list in
      (mkSession library' (save_library library'), BookAdded)
    else (st, FillAllFields)
  else (st, Nothing).

Fixpoint remove_loop (st : session) (title : string) (rest : list Book)
  : option (session * message) :=
  match rest with
  | [] => Some (st, BookNotFound)
  | book :: rest' =>
      if title_matches title book then
        match list_remove book (library st) with
        | Some library' =>
            Some (mkSession library' (save_library library'), BookRemoved)
        | None => None
        end
      else remove_loop st title rest'
  end.

Definition remove_book (st : session) (title : string) (clicked : bool)
  : option (session * message) :=
  if clicked then remove_loop st title (library st) else Some (st, Nothing).

(** What started the run of the script on the page of [edit_book].  A
    [st.button] and a [st.form_submit_button] return [True] only in the
    run that a click on them starts, and a click starts one run.  The
    widgets of a form return what the form held in the run that its
    submit button starts, and their [value=] in a run in which they are
    new. *)
Inductive edit_event : Type :=
  | NoClick                      (* the page is shown, or the title typed *)
  | SearchClicked
  | SaveChangesClicked (new_title new_author : string) (new_year : Z)
                       (new_genre : string) (new_read : bool).

(** [st.button("Search")] *)
Definition button_search (e : edit_event) : bool :=
  match e with
  | SearchClicked => true
  | _ => false
  end.

(** [st.form_submit_button("Save Changes")] *)
Definition form_submit_button (e : edit_event) : bool :=
  match e with
  | SaveChangesClicked _ _ _ _ _ => true
  | _ => false
  end.

(** The widgets of the form: [st.text_input(label, value=value)] for the
    title, the author and the genre, [st.checkbox(label, value=value)]. *)
Definition text_input_title (e : edit_event) (value : string) : string :=
  match e with
  | SaveChangesClicked new_title _ _ _ _ => new_title
  | _ => value
  end.

Definition text_input_author (e : edit_event) (value : string) : string :=
  match e with
  | SaveChangesClicked _ new_author _ _ _ => new_author
  | _ => value
  end.

Definition text_input_genre (e : edit_event) (value : string) : string :=
  match e with
  | SaveChangesClicked _ _ _ new_genre _ => new_genre
  | _ => value
  end.

Definition checkbox (e : edit_event) (value : bool) : bool :=
  match e with
  | SaveChangesClicked _ _ _ _ new_read => new_read
  | _ => value
  end.

(** [st.number_input(label, value=value)] on an [int]: the value has to
    be one of the integers that JavaScript holds exactly; [None] is the
    [StreamlitAPIException] raised when it is not. *)
Definition number_input (e : edit_event) (value : Z) : option Z :=
  if Z.abs value <=? 2 ^ 53 - 1 then
    Some match e with
         | SaveChangesClicked _ _ new_year _ _ => new_year
         | _ => value
         end
  else None.

(** The five assignments of [edit_book] on the book found: each key takes
    what its widget returns. *)
Definition update (book : Book) (new_title new_author : string)
  (new_year : Z) (new_genre : string) (new_read : bool) : Book :=
  {| Title := new_title; Author := new_author; Year := new_year;
     Genre := new_genre; Read := new_read |}.

(** The loop of [edit_book], entered when [st.button("Search")] is true:
    the list after it, and whether a book was found; [None] is an
    exception. *)
Fixpoint edit_loop (books : list Book) (title : string) (e : edit_event)
  : option (list Book * bool) :=
  match books with
  | [] => Some ([], false)
  | book :: rest =>
      if title_matches title book then
        match number_input e (Year book) with
        | Some new_year =>
            Some (update book (text_input_title e (Title book))
                    (text_input_author e (Author book)) new_year
                    (text_input_genre e (Genre book))
                    (checkbox e (Read book)) :: rest,
                  true)
        | None => None
        end
      else
        match edit_loop rest title e with
        | Some (rest', found) => Some (book :: rest', found)
        | None => None
        end
  end.

(** [edit_book(library)] in a run started by [e], with [title] in the
    text input above the button. *)
Definition edit_book (st : session) (title : string) (e : edit_event)
  : option (session * message) :=
  if button_search e then
    match edit_loop (library st) title e with
    | Some (library', found) =>
        if found then
          if form_submit_button e
          then Some (mkSession library' (save_library library'), BookUpdated)
          else Some (mkSession library' (file st), Nothing)
        else Some (st, BookNotFound)
    | None => None
    end
  else Some (st, Nothing).

(** The answer to "Search by": "Title" or "Author"; [field search_by book]
    is [book[search_by]]. *)
Inductive search_by : Type := ByTitle | ByAuthor.

Definition field (by_field : search_by) (book : Book) : string :=
  match by_field with
  | ByTitle => Title book
  | ByAuthor => Author book
  end.

Definition search_book (library : Library) (by_field : search_by)
  (query : string) (clicked : bool) : message :=
  if clicked then
    let results :=
      filter (fun book =>
                Py.contains (Py.lower query) (Py.lower (field by_field book)))
             library in
    match results with
    | [] => NoMatchingBooks
    | _ => Matching results
    end
  else Nothing.

(** The entries of the sidebar menu of [main], with what the widgets of the
    page return. *)
Inductive menu : Type :=
  | AddABook (title author : string) (year : Z) (genre : string)
             (read_status submitted : bool)
  | RemoveABook (title : string) (clicked : bool)
  | EditABook (title : string) (e : edit_event)
  | SearchForABook (by_field : search_by) (query : string) (clicked : bool)
  | DisplayAllBooks
  | DisplayStatistics.

(** [main()], one run of the script: the library is loaded from the file
    and the page of the chosen entry runs.  [None] is an exception, or a
    file whose content decodes to something that is not a list of books
    as [add_book] builds them, which this model does not follow. *)
Definition main (file0 : option string) (m : menu)
  : option (session * message) :=
  match Json.as_library (load_library file0) with
  | None => None
  | Some library0 =>
      let st := mkSession library0 file0 in
      match m with
      | AddABook title author year genre read_status submitted =>
          Some (add_book st title author year genre read_status submitted)
      | RemoveABook title clicked => remove_book st title clicked
      | EditABook title e => edit_book st title e
      | SearchForABook by_field query clicked =>
          Some (st, search_book library0 by_field query clicked)
      | DisplayAllBooks | DisplayStatistics => Some (st, Nothing)
      end
  end.

End app.

(** ** Auxiliary notions of the properties *)

(** No book of [books] has the title [title], compared as [remove_book] and
    [edit_book] compare. *)
Definition no_match (title : string) (books : list Book) : Prop :=
  Forall (fun book => title_matches title book = false) books.

(** A scan is sound for a bound [m] when it did not run out of budget and
    left fewer than [m] characters. *)
Definition sound {A : Type} (x : Json.scan A) (m : nat) : Prop :=
  match x with
  | Json.Found _ r => (String.length r < m)%nat
  | Json.DecodeError => True
  | Json.Exhausted => False
  end.

(** [g] agrees with [f] wherever [f] did not run out of budget. *)
Definition extends {A : Type} (f g : string -> Json.scan A) : Prop :=
  forall t, f t <> Json.Exhausted -> g t = f t.

(** A line that a conversion refuses, once trimmed. *)
Definition rejected {A : Type} (input_type : string -> option A)
  (line : string) : Prop :=
  input_type (Py.strip line) = None.

(** The messages that report a change of the library. *)
Definition reports_success (msg : message) : bool :=
  match msg with
  | BookAdded | BookRemoved | BookUpdated => true
  | _ => false
  end.

(** A text of printable ASCII characters and line feeds. *)
Fixpoint plain (s : string) : bool :=
  match s with
  | EmptyString => true
  | String c s' =>
      ((32 <=? Py.code c) && (Py.code c <=? 126) || (Py.code c =? 10))%N
      && plain s'
  end.

(** Two books that [sorted] does not tell apart: neither key is smaller. *)
Definition same_key (sort_by : library_manager.sort_key) (x y : Book)
  : bool :=
  negb (library_manager.key_lt sort_by x y) &&
  negb (library_manager.key_lt sort_by y x).


(** What a choice of the menu prints; [None] is an exception. *)
Definition printed_by (st : session) (c : library_manager.choice)
  : option console.output :=
  match c with
  | library_manager.Add title author year genre answer =>
      Some (console.Said
              (snd (library_manager.add_book (library st) title author year
                      genre answer)))
  | library_manager.Remove title =>
      option_map (fun r => console.Said (snd r))
                 (library_manager.remove_book (library st) title)
  | library_manager.Edit title new_title new_author new_year new_genre
      answer =>
      Some (console.Said
              (snd (library_manager.edit_book (library st) title new_title
                      new_author new_year new_genre answer)))
  | library_manager.Search by_field term =>
      Some (console.Said
              (library_manager.search_book (library st) by_field term))
  | library_manager.Display =>
      Some (console.Showed
              (library_manager.display_books (library st) None))
  | library_manager.Statistics =>
      option_map console.Counted (display_statistics (library st))
  | library_manager.Sort sort_by =>
      Some (console.Showed
              (library_manager.display_books (library st)
                 (Some (console.sort_key_of sort_by))))
  | library_manager.Exit => Some console.Farewell
  end.

(** What the loop of [main] prints on a list of choices. *)
Fixpoint menu_prints (st : session) (choices : list library_manager.choice)
  : option (list console.output) :=
  match choices with
  | [] => Some []
  | library_manager.Exit :: _ => Some [console.Farewell]
  | c :: rest =>
      match printed_by st c, library_manager.turn st c with
      | Some out, Some st' => option_map (cons out) (menu_prints st' rest)
      | _, _ => None
      end
  end.






(** The books of the examples. *)
Definition dune : Book := mkBook "Dune" "Herbert" 1965 "Sci-Fi" false.
Definition emma : Book := mkBook "Emma" "Austen" 1815 "Novel" true.
Definition dune_again : Book := mkBook "DUNE" "Lynch" 1984 "Film" true.

(** * Properties *)

Open Scope list_scope.

(** ** Books, titles and [list.remove] *)


Lemma Book_eqb_eq (a b : Book) : Book_eqb a b = true <-> a = b.
Proof.
  unfold Book_eqb. destruct a as [t a y g r], b as [t' a' y' g' r']; simpl.
  rewrite !andb_true_iff, !String.eqb_eq, Z.eqb_eq, Bool.eqb_true_iff.
  split.
  - intros [[[[-> ->] ->] ->] ->]. reflexivity.
  - intros [= -> -> -> -> ->]. repeat split.
Qed.

Lemma Book_eqb_refl (a : Book) : Book_eqb a a = true.
Proof. now apply Book_eqb_eq. Qed.

(** Any list splits at its first book of a given title, if it has one. *)
Lemma first_match_split (title : string) (books : list Book) :
  no_match title books \/
  exists pre book post,
    books = (pre ++ book :: post)%list /\ no_match title pre /\
    title_matches title book = true.
Proof.
  induction books as [|b rest IH].
  - left. constructor.
  - destruct (title_matches title b) eqn:E.
    + right. exists [], b, rest. repeat split; [constructor | assumption].
    + destruct IH as [IH | (pre & book & post & -> & Hpre & Hb)].
      * left. constructor; assumption.
      * right. exists (b :: pre), book, post.
        repeat split; [constructor; assumption | assumption].
Qed.

(** [list.remove] of the first book of a title takes out that very item:
    no earlier item can be equal to it, since it would have the title. *)
Lemma list_remove_first_match (title : string) (pre post : list Book)
  (book : Book) :
  no_match title pre -> title_matches title book = true ->
  list_remove book (pre ++ book :: post) = Some (pre ++ post)%list.
Proof.
  intros Hpre Hb. induction Hpre as [|x pre Hx Hpre IH]; simpl.
  - now rewrite Book_eqb_refl.
  - destruct (Book_eqb x book) eqn:E.
    + apply Book_eqb_eq in E. subst x. congruence.
    + now rewrite IH.
Qed.

Lemma menu_remove_loop_skip (library : Library) (title : string)
  (pre rest : list Book) :
  no_match title pre ->
  library_manager.remove_loop library title (pre ++ rest) =
  library_manager.remove_loop library title rest.
Proof.
  induction 1 as [|x pre Hx Hpre IH]; simpl; [reflexivity|].
  now rewrite Hx.
Qed.

Lemma web_remove_loop_skip (st : session) (title : string)
  (pre rest : list Book) :
  no_match title pre ->
  app.remove_loop st title (pre ++ rest) = app.remove_loop st title rest.
Proof.
  induction 1 as [|x pre Hx Hpre IH]; simpl; [reflexivity|].
  now rewrite Hx.
Qed.

Lemma menu_remove_found (title : string) (pre post : list Book)
  (book : Book) :
  no_match title pre -> title_matches title book = true ->
  library_manager.remove_book (pre ++ book :: post) title =
  Some ((pre ++ post)%list, BookRemoved).
Proof.
  intros Hpre Hb. unfold library_manager.remove_book.
  rewrite menu_remove_loop_skip by assumption. simpl. rewrite Hb.
  now rewrite (list_remove_first_match title).
Qed.

Lemma menu_remove_missing (title : string) (books : list Book) :
  no_match title books ->
  library_manager.remove_book books title = Some (books, BookNotFound).
Proof.
  intros H. unfold library_manager.remove_book.
  rewrite <- (List.app_nil_r books) at 2.
  now rewrite menu_remove_loop_skip.
Qed.

Lemma web_remove_found (title : string) (pre post : list Book)
  (book : Book) (f : option string) :
  no_match title pre -> title_matches title book = true ->
  app.remove_book (mkSession (pre ++ book :: post) f) title true =
  Some (mkSession (pre ++ post) (save_library (pre ++ post)), BookRemoved).
Proof.
  intros Hpre Hb. unfold app.remove_book. simpl.
  rewrite web_remove_loop_skip by assumption. simpl. rewrite Hb.
  now rewrite (list_remove_first_match title).
Qed.

Lemma web_remove_missing (title : string) (st : session) :
  no_match title (library st) ->
  app.remove_book st title true = Some (st, BookNotFound).
Proof.
  intros H. unfold app.remove_book.
  rewrite <- (List.app_nil_r (library st)).
  now rewrite web_remove_loop_skip.
Qed.

(** ** Scanning what [json.dump] printed *)

Lemma append_assoc (a b c : string) : ((a ++ b) ++ c = a ++ (b ++ c))%string.
Proof. induction a; simpl; congruence. Qed.

Lemma length_append (a b : string) :
  String.length (a ++ b)%string = (String.length a + String.length b)%nat.
Proof. induction a; simpl; congruence. Qed.

(** Each of the 256 characters is read back from its escape. *)
Lemma scanstring_escape_char (c : ascii) (rest : string) :
  Json.scanstring (Json.escape_char c ++ rest)%string =
  Json.scan_map (cons (Py.code c)) (Json.scanstring rest).
Proof.
  destruct c as [[] [] [] [] [] [] [] []];
    try reflexivity; destruct rest as [|b1 [|b2 s4]]; reflexivity.
Qed.

Lemma scanstring_escape (s rest : string) :
  Json.scanstring (Json.escape s ++ Json.quote ++ rest)%string =
  Json.Found (Json.text s) rest.
Proof.
  induction s as [|c s IH]; [reflexivity|].
  cbn [Json.escape]. rewrite append_assoc, scanstring_escape_char, IH.
  reflexivity.
Qed.

Lemma digits_string_of_uint (d : Decimal.uint) (r : string) :
  Json.digits (NilEmpty.string_of_uint d ++ String "," r)%string =
  (d, String "," r).
Proof.
  induction d; simpl; [reflexivity | rewrite IHd; reflexivity ..].
Qed.

(** The decimal digits of a positive number do not start with 0. *)
Lemma to_uint_head (p : positive) (d : Decimal.uint) :
  Pos.to_uint p <> Decimal.D0 d.
Proof.
  intros E.
  pose proof (DecimalPos.Unsigned.to_of (Pos.to_uint p)) as H.
  rewrite DecimalPos.Unsigned.of_to in H. simpl in H.
  rewrite E, DecimalFacts.unorm_D0 in H.
  unfold Decimal.unorm in H.
  destruct (Decimal.nzhead d) eqn:En; try discriminate H.
  - rewrite <- E in H. now apply (DecimalPos.Unsigned.to_uint_nonzero p).
  - now apply (DecimalFacts.nzhead_nonzero d u).
Qed.

(** The number that [str] printed for a non-zero [int], followed by a
    comma, is matched whole, as an [int] of the same value. *)
Lemma match_number_uint (negative : bool) (p : positive) (r : string) :
  Json.match_number
    ((if negative then "-" else "") ++
     NilZero.string_of_uint (Pos.to_uint p) ++ String "," r)%string =
  Some (Json.Int (if negative then Zneg p else Zpos p), String "," r).
Proof.
  assert (V : forall d, Pos.to_uint p = d ->
              Z.of_int (if negative then Decimal.Neg d else Decimal.Pos d) =
              if negative then Zneg p else Zpos p).
  { intros d <-. destruct negative.
    - exact (DecimalZ.of_to (Zneg p)).
    - exact (DecimalZ.of_to (Zpos p)). }
  destruct (Pos.to_uint p) as [|d|d|d|d|d|d|d|d|d|d] eqn:E;
    [now destruct (DecimalPos.Unsigned.to_uint_nonnil p)
    |now destruct (to_uint_head p d) | ..];
    destruct negative; unfold Json.match_number; simpl;
    rewrite digits_string_of_uint; simpl; now rewrite <- (V _ eq_refl).
Qed.

(** What [NUMBER_RE] matches, [_scan_once] returns: no earlier case of
    [_scan_once] takes a text that starts with a digit or a minus sign. *)
Lemma scan_once_number (fuel : nat) (s r : string) (v : Json.value) :
  Json.match_number s = Some (v, r) ->
  Json.scan_once (S fuel) s = Json.Found v r.
Proof.
  intros H. destruct s as [|c s']; [discriminate H|].
  destruct c as [[] [] [] [] [] [] [] []];
    try (exfalso; unfold Json.match_number in H; simpl in H; discriminate H);
    simpl; rewrite H; reflexivity.
Qed.

Lemma scan_once_int (fuel : nat) (z : Z) (r : string) :
  Json.scan_once (S fuel) (Py.str_of_int z ++ String "," r)%string =
  Json.Found (Json.Int z) (String "," r).
Proof.
  apply scan_once_number. destruct z as [|p|p].
  - reflexivity.
  - exact (match_number_uint false p r).
  - exact (match_number_uint true p r).
Qed.

Lemma scan_once_bool (fuel : nat) (b : bool) (r : string) :
  Json.scan_once (S fuel) (Json.dump_bool b ++ r)%string =
  Json.Found (Json.Bool b) r.
Proof. destruct b; reflexivity. Qed.

Lemma scan_once_str (fuel : nat) (s r : string) :
  Json.scan_once (S fuel) (Json.dump_str s ++ r)%string =
  Json.Found (Json.Str (Json.text s)) r.
Proof.
  unfold Json.dump_str. rewrite !append_assoc.
  change (Json.scan_once (S fuel) (Json.quote ++ ?x)%string)
    with (Json.scan_map Json.Str (Json.scanstring x)).
  now rewrite scanstring_escape.
Qed.

(** ** The round trip of [json.dump] and [json.load] *)

Lemma scan_once_S (f : nat) (s : string) :
  Json.scan_once (S f) s =
  Json.scan_value (Json.object_members f) (Json.array_items f) s.
Proof. reflexivity. Qed.

Lemma array_items_S (f : nat) (s : string) :
  Json.array_items (S f) s =
  Json.array_loop (Json.scan_once f) (Json.array_items f) s.
Proof. reflexivity. Qed.

Lemma object_members_S (f : nat) (s : string) :
  Json.object_members (S f) s =
  Json.object_loop (Json.scan_once f) (Json.object_members f) s.
Proof. reflexivity. Qed.

Local Arguments Json.scan_once : simpl never.
Local Arguments Json.object_members : simpl never.
Local Arguments Json.array_items : simpl never.

(** One member of a printed book that is not the last: its key, its value
    printed as [vtext], a comma and the indentation. *)
Lemma members_step (f : nat) (key vtext next more : string)
  (v : Json.value) :
  (forall r, Json.skip_ws (vtext ++ r)%string = (vtext ++ r)%string) ->
  (forall r, Json.scan_once f (vtext ++ String "," r)%string =
             Json.Found v (String "," r)) ->
  Json.object_members (S f)
    (Json.escape key ++ Json.quote ++ ": " ++ vtext ++ "," ++
     Json.newline_indent 2 ++ Json.dump_str next ++ more)%string =
  Json.scan_map (cons (Json.text key, v))
    (Json.object_members f (Json.escape next ++ Json.quote ++ more)%string).
Proof.
  intros Hws Hv. rewrite object_members_S. unfold Json.object_loop.
  rewrite scanstring_escape. simpl. rewrite Hws, Hv.
  unfold Json.dump_str. rewrite !append_assoc. reflexivity.
Qed.

Lemma members_last (f : nat) (key : string) (b : bool) (rest : string) :
  Json.object_members (S (S f))
    (Json.escape key ++ Json.quote ++ ": " ++ Json.dump_bool b ++
     Json.newline_indent 1 ++ "}" ++ rest)%string =
  Json.Found [(Json.text key, Json.Bool b)] rest.
Proof.
  rewrite object_members_S. unfold Json.object_loop.
  rewrite scanstring_escape. simpl.
  replace (Json.skip_ws _) with
    (Json.dump_bool b ++ Json.newline_indent 1 ++ "}" ++ rest)%string
    by (now destruct b).
  rewrite scan_once_bool. reflexivity.
Qed.

Lemma skip_ws_str (s r : string) :
  Json.skip_ws (Json.dump_str s ++ r)%string = (Json.dump_str s ++ r)%string.
Proof. reflexivity. Qed.

Lemma skip_ws_int (z : Z) (r : string) :
  Json.skip_ws (Py.str_of_int z ++ r)%string = (Py.str_of_int z ++ r)%string.
Proof.
  destruct z as [|p|p]; [reflexivity | | reflexivity].
  unfold Py.str_of_int. simpl.
  destruct (Pos.to_uint p); reflexivity.
Qed.

(** A printed book is read back as the book, by a scan of budget 7 or
    more. *)
Lemma scan_once_book (f : nat) (b : Book) (rest : string) :
  Json.scan_once (7 + f) (Json.dump_book b ++ rest)%string =
  Json.Found (Json.of_book b) rest.
Proof.
  unfold Json.dump_book. rewrite !append_assoc.
  change (7 + f)%nat with (S (S (S (S (S (S (S f))))))).
  rewrite scan_once_S.
  change (Json.scan_value ?m ?i
            ("{" ++ Json.newline_indent 2 ++ Json.dump_str ?k ++ ?r)%string)
    with (Json.scan_map (fun pairs => Json.Object (Json.dict pairs))
             (m (Json.escape k ++ Json.quote ++ r)%string)).
  rewrite (members_step _ "Title" (Json.dump_str (Title b)) _ _
             (Json.Str (Json.text (Title b))))
    by (intros; first [apply skip_ws_str | apply scan_once_str]).
  rewrite (members_step _ "Author" (Json.dump_str (Author b)) _ _
             (Json.Str (Json.text (Author b))))
    by (intros; first [apply skip_ws_str | apply scan_once_str]).
  rewrite (members_step _ "Year" (Py.str_of_int (Year b)) _ _
             (Json.Int (Year b)))
    by (intros; first [apply skip_ws_int | apply scan_once_int]).
  rewrite (members_step _ "Genre" (Json.dump_str (Genre b)) _ _
             (Json.Str (Json.text (Genre b))))
    by (intros; first [apply skip_ws_str | apply scan_once_str]).
  rewrite members_last. reflexivity.
Qed.

Lemma skip_ws_spaces (k : nat) (x : string) :
  Json.skip_ws (Json.spaces k ++ x)%string = Json.skip_ws x.
Proof. induction k as [|k IH]; [reflexivity | exact IH]. Qed.

Lemma skip_ws_book (n : nat) (b : Book) (r : string) :
  Json.skip_ws (Json.newline_indent n ++ Json.dump_book b ++ r)%string =
  (Json.dump_book b ++ r)%string.
Proof.
  unfold Json.newline_indent. rewrite append_assoc.
  change (Json.skip_ws (Json.newline ++ ?x)%string) with (Json.skip_ws x).
  rewrite skip_ws_spaces. reflexivity.
Qed.

Lemma array_items_books (books : list Book) :
  forall (b : Book) (f : nat) (rest : string),
  Json.array_items (List.length books + 8 + f)
    (Json.dump_book b ++ Json.dump_more books ++
     Json.newline_indent 0 ++ "]" ++ rest)%string =
  Json.Found (map Json.of_book (b :: books)) rest.
Proof.
  induction books as [|b' books IH]; intros b f rest.
  - change (List.length (@nil Book) + 8 + f)%nat with (S (7 + f)).
    rewrite array_items_S. unfold Json.array_loop.
    rewrite scan_once_book. reflexivity.
  - change (List.length (b' :: books) + 8 + f)%nat
      with (S (List.length books + 8 + f)).
    rewrite array_items_S. unfold Json.array_loop.
    replace (List.length books + 8 + f)%nat
      with (7 + (List.length books + 1 + f))%nat at 1 by lia.
    rewrite scan_once_book.
    cbn [Json.dump_more]. rewrite !append_assoc.
    change (Json.skip_ws ("," ++ ?x)%string) with (String "," x).
    cbv iota. change (Json.is_code "," 93) with false.
    change (Json.is_code "," 44) with true. cbv iota.
    rewrite skip_ws_book, IH. reflexivity.
Qed.

Lemma length_dump_more (books : list Book) :
  (List.length books <= String.length (Json.dump_more books))%nat.
Proof.
  induction books as [|b books IH]; [apply Nat.le_refl|].
  cbn [Json.dump_more List.length]. rewrite !length_append.
  change (String.length ",") with 1%nat. lia.
Qed.

Lemma dump_book_head (b : Book) (x : string) :
  exists r, (Json.dump_book b ++ x)%string = String "{" r.
Proof. eexists. reflexivity. Qed.

(** [json.loads(json.dumps(library, indent=4))] is the library. *)
Lemma loads_dumps (library : Library) :
  Json.loads (Json.dumps library) = Some (Json.of_library library).
Proof.
  destruct library as [|b books]; [reflexivity|].
  unfold Json.loads, Json.dumps.
  set (s := ("[" ++ _)%string).
  assert (Hs : exists f, Json.budget s = S (List.length books + 8 + f)).
  { exists (Json.budget s - S (List.length books + 8))%nat.
    unfold Json.budget. subst s.
    rewrite !length_append. pose proof (length_dump_more books).
    change (String.length (Json.newline_indent 1)) with 5%nat.
    change (String.length (Json.newline_indent 0)) with 1%nat.
    change (String.length "[") with 1%nat.
    change (String.length "]") with 1%nat. lia. }
  destruct Hs as [f ->]. subst s.
  change (Json.skip_ws ("[" ++ ?x)%string) with (String "[" x).
  rewrite scan_once_S.
  change (Json.scan_value ?m ?i (String "[" ?x))
    with (Json.scan_map Json.Array (Json.JSONArray i x)).
  unfold Json.JSONArray. rewrite skip_ws_book.
  destruct (dump_book_head b
              (Json.dump_more books ++ Json.newline_indent 0 ++ "]")%string)
    as [r E].
  rewrite E at 1. change (Json.is_code "{" 93) with false. cbv iota.
  rewrite <- E.
  pose proof (array_items_books books b f EmptyString) as H.
  change ("]" ++ "")%string with "]" in H. rewrite H. reflexivity.
Qed.

Lemma as_text_text (s : string) : Json.as_text (Json.text s) = Some s.
Proof.
  induction s as [|c s IH]; [reflexivity|].
  change (Json.text (String c s)) with (N_of_ascii c :: Json.text s).
  cbn [Json.as_text]. rewrite IH.
  pose proof (N_ascii_bounded c) as Hc. apply N.ltb_lt in Hc. rewrite Hc.
  simpl. now rewrite ascii_N_embedding.
Qed.

Lemma as_book_of_book (b : Book) : Json.as_book (Json.of_book b) = Some b.
Proof.
  destruct b as [t a y g r]. unfold Json.of_book, Json.as_book.
  cbn [Title Author Year Genre Read].
  rewrite !as_text_text. reflexivity.
Qed.

Lemma as_library_of_library (library : Library) :
  Json.as_library (Json.of_library library) = Some library.
Proof.
  unfold Json.as_library, Json.of_library.
  induction library as [|b books IH]; [reflexivity|].
  cbn [map Json.as_books]. now rewrite as_book_of_book, IH.
Qed.

(** ** The budget of [scan_once] *)

Lemma sound_map {A B : Type} (f : A -> B) (x : Json.scan A) (m : nat) :
  sound x m -> sound (Json.scan_map f x) m.
Proof. destruct x; exact (fun H => H). Qed.

Lemma sound_mono {A : Type} (x : Json.scan A) (m m' : nat) :
  sound x m -> (m <= m')%nat -> sound x m'.
Proof. destruct x; simpl; [lia | trivial | trivial]. Qed.

Lemma skip_ws_length (s : string) :
  (String.length (Json.skip_ws s) <= String.length s)%nat.
Proof.
  induction s as [|c s IH]; simpl; [lia|].
  destruct (Json.is_ws c); simpl; lia.
Qed.

Lemma scanstring_sound (n : nat) :
  forall s, (String.length s <= n)%nat ->
  sound (Json.scanstring s) (String.length s).
Proof.
  induction n as [|n IH]; intros s Hn.
  - destruct s; [exact I | simpl in Hn; lia].
  - assert (K : forall (f : list N -> list N) t,
              (String.length t < String.length s)%nat ->
              sound (Json.scan_map f (Json.scanstring t)) (String.length s)).
    { intros f t Ht. apply sound_map.
      apply sound_mono with (String.length t); [apply IH|]; lia. }
    destruct s as [|c s1]; [exact I|].
    cbn [Json.scanstring].
    repeat match goal with
           | |- sound (Json.scan_map _ (Json.scanstring _)) _ =>
               apply K; simpl in *; lia
           | |- sound Json.DecodeError _ => exact I
           | |- sound (Json.Found _ _) _ => simpl; lia
           | |- sound (if ?b then _ else _) _ => destruct b
           | |- sound (match ?x with _ => _ end) _ => destruct x
           end.
Qed.

Lemma digits_length (s : string) :
  (String.length (snd (Json.digits s)) <= String.length s)%nat.
Proof.
  induction s as [|c s IH]; simpl; [lia|].
  destruct (Json.is_digit c); [|simpl; lia].
  destruct (Json.digits s); simpl in *; lia.
Qed.

Lemma fraction_length (s : string) :
  (String.length (snd (Json.fraction s)) <= String.length s)%nat.
Proof.
  destruct s as [|c s]; simpl; [lia|].
  destruct (Json.is_code c 46); [|simpl; lia].
  pose proof (digits_length s).
  destruct (Json.digits s) as [[] r]; simpl in *; lia.
Qed.

Lemma exponent_length (s : string) :
  (String.length (snd (Json.exponent s)) <= String.length s)%nat.
Proof.
  destruct s as [|e s]; simpl; [lia|].
  destruct (Json.is_code e 101 || Json.is_code e 69); [|simpl; lia].
  destruct s as [|sg s]; [simpl; lia|].
  destruct (Json.is_code sg 45 || Json.is_code sg 43).
  - pose proof (digits_length s).
    destruct (Json.digits s) as [[] r]; simpl in *; lia.
  - pose proof (digits_length (String sg s)).
    destruct (Json.digits (String sg s)) as [[] r]; simpl in *; lia.
Qed.

Lemma match_number_length (s r : string) (v : Json.value) :
  Json.match_number s = Some (v, r) ->
  (String.length r < String.length s)%nat.
Proof.
  unfold Json.match_number.
  set (sign := match s with
               | String c s' =>
                   if Json.is_code c 45 then (true, s') else (false, s)
               | EmptyString => (false, s)
               end).
  assert (Hs : (String.length (snd sign) <= String.length s)%nat).
  { subst sign. destruct s as [|c s']; simpl; [lia|].
    destruct (Json.is_code c 45); simpl; lia. }
  destruct sign as [negative s1]. simpl in Hs.
  destruct s1 as [|c s2]; [discriminate|].
  destruct (Json.is_digit c) eqn:Hc; [|discriminate].
  set (integer := if Json.is_code c 48 then (Decimal.D0 Decimal.Nil, s2)
                  else Json.digits (String c s2)).
  assert (Hi : (String.length (snd integer) <= String.length s2)%nat).
  { subst integer. destruct (Json.is_code c 48); [simpl; lia|].
    simpl. rewrite Hc. pose proof (digits_length s2).
    destruct (Json.digits s2); simpl in *; lia. }
  destruct integer as [d s3]. simpl in Hi.
  pose proof (fraction_length s3) as Hf.
  destruct (Json.fraction s3) as [frac s4]. simpl in Hf.
  pose proof (exponent_length s4) as He.
  destruct (Json.exponent s4) as [exp s5]. simpl in He.
  simpl in Hs.
  destruct frac, exp; intros [= _ <-]; lia.
Qed.

Lemma after_length (p s r : string) :
  Json.after p s = Some r ->
  String.length s = (String.length p + String.length r)%nat.
Proof.
  revert s. induction p as [|a p IH]; intros s; simpl.
  - now intros [= ->].
  - destruct s as [|b s]; [discriminate|].
    destruct (Ascii.eqb a b); [|discriminate].
    intros H. apply IH in H. simpl. lia.
Qed.

Lemma scan_value_sound
  (members : string -> Json.scan (list (list N * Json.value)))
  (items : string -> Json.scan (list Json.value)) (s : string) :
  (forall t, (String.length t < String.length s)%nat ->
             sound (members t) (String.length t)) ->
  (forall t, (String.length t < String.length s)%nat ->
             sound (items t) (String.length t)) ->
  sound (Json.scan_value members items s) (String.length s).
Proof.
  intros Hm Hi. destruct s as [|c s']; [exact I|].
  unfold Json.scan_value.
  destruct (Json.is_code c 34).
  { apply sound_map.
    apply sound_mono with (String.length s');
      [now apply (scanstring_sound (String.length s')) | simpl; lia]. }
  destruct (Json.is_code c 123).
  { apply sound_map. unfold Json.JSONObject.
    pose proof (skip_ws_length s') as Hw.
    destruct (Json.skip_ws s') as [|q r]; [exact I|].
    simpl in Hw.
    destruct (Json.is_code q 125); [simpl; lia|].
    destruct (Json.is_code q 34); [|exact I].
    apply sound_mono with (String.length r); [apply Hm|]; simpl; lia. }
  destruct (Json.is_code c 91).
  { apply sound_map. unfold Json.JSONArray.
    pose proof (skip_ws_length s') as Hw.
    destruct (Json.skip_ws s') as [|q r].
    - apply sound_mono with (String.length EmptyString);
        [apply Hi|]; simpl; lia.
    - simpl in Hw. destruct (Json.is_code q 93); [simpl; lia|].
      apply sound_mono with (String.length (String q r));
        [apply Hi|]; simpl; lia. }
  repeat match goal with
         | |- sound (match Json.after ?p ?x with _ => _ end) _ =>
             let E := fresh "E" in
             destruct (Json.after p x) eqn:E;
             [apply after_length in E; simpl in E|]
         | |- sound (match Json.match_number ?x with _ => _ end) _ =>
             let E := fresh "E" in
             destruct (Json.match_number x) as [[? ?]|] eqn:E;
             [apply match_number_length in E; simpl in E|]
         | |- sound (Json.Found _ _) _ => simpl; lia
         | |- sound Json.DecodeError _ => exact I
         end.
Qed.

Lemma array_loop_sound (scan_once : string -> Json.scan Json.value)
  (items : string -> Json.scan (list Json.value)) (s : string) :
  sound (scan_once s) (String.length s) ->
  (forall t, (String.length t < String.length s)%nat ->
             sound (items t) (String.length t)) ->
  sound (Json.array_loop scan_once items s) (String.length s).
Proof.
  intros Hv Hi. unfold Json.array_loop.
  destruct (scan_once s) as [v rest| |]; [|exact I|exact Hv].
  simpl in Hv. pose proof (skip_ws_length rest) as Hw.
  destruct (Json.skip_ws rest) as [|c r]; [exact I|]. simpl in Hw.
  destruct (Json.is_code c 93); [simpl; lia|].
  destruct (Json.is_code c 44); [|exact I].
  apply sound_map. pose proof (skip_ws_length r).
  apply sound_mono with (String.length (Json.skip_ws r)); [apply Hi|]; lia.
Qed.

Lemma object_loop_sound (scan_once : string -> Json.scan Json.value)
  (members : string -> Json.scan (list (list N * Json.value))) (s : string) :
  (forall t, (String.length t < String.length s)%nat ->
             sound (scan_once t) (String.length t)) ->
  (forall t, (String.length t < String.length s)%nat ->
             sound (members t) (String.length t)) ->
  sound (Json.object_loop scan_once members s) (String.length s).
Proof.
  intros Hv Hm. unfold Json.object_loop.
  pose proof (scanstring_sound (String.length s) s (Nat.le_refl _)) as Hk.
  destruct (Json.scanstring s) as [key rest| |]; [|exact I|exact Hk].
  simpl in Hk. pose proof (skip_ws_length rest) as Hw.
  destruct (Json.skip_ws rest) as [|c r]; [exact I|]. simpl in Hw.
  destruct (Json.is_code c 58); [|exact I].
  pose proof (skip_ws_length r) as Hw'.
  assert (Hr : (String.length (Json.skip_ws r) < String.length s)%nat) by lia.
  specialize (Hv _ Hr).
  destruct (scan_once (Json.skip_ws r)) as [v rest'| |];
    [|exact I|exact Hv].
  simpl in Hv. pose proof (skip_ws_length rest') as Hw''.
  destruct (Json.skip_ws rest') as [|c' r']; [exact I|]. simpl in Hw''.
  destruct (Json.is_code c' 125); [simpl; lia|].
  destruct (Json.is_code c' 44); [|exact I].
  pose proof (skip_ws_length r') as Hq.
  destruct (Json.skip_ws r') as [|q r'']; [exact I|]. simpl in Hq.
  destruct (Json.is_code q 34); [|exact I].
  apply sound_map.
  apply sound_mono with (String.length r''); [apply Hm|]; lia.
Qed.

(** With a budget of twice the length of the text and one more (and one
    more again for the loops), no scan runs out of it, and each leaves
    less than it was given. *)
Lemma scans_sound (fuel : nat) :
  (forall s, (2 * String.length s + 1 <= fuel)%nat ->
             sound (Json.scan_once fuel s) (String.length s)) /\
  (forall s, (2 * String.length s + 2 <= fuel)%nat ->
             sound (Json.array_items fuel s) (String.length s)) /\
  (forall s, (2 * String.length s + 2 <= fuel)%nat ->
             sound (Json.object_members fuel s) (String.length s)).
Proof.
  induction fuel as [|fuel (IHv & IHi & IHm)].
  - repeat split; intros s H; lia.
  - repeat split; intros s H.
    + rewrite scan_once_S. apply scan_value_sound; intros t Ht.
      * apply IHm. lia.
      * apply IHi. lia.
    + rewrite array_items_S. apply array_loop_sound.
      * apply IHv. lia.
      * intros t Ht. apply IHi. lia.
    + rewrite object_members_S. apply object_loop_sound; intros t Ht.
      * apply IHv. lia.
      * apply IHm. lia.
Qed.

Theorem scan_once_budget (s : string) :
  Json.scan_once (Json.budget s) (Json.skip_ws s) <> Json.Exhausted.
Proof.
  pose proof (skip_ws_length s) as Hw.
  destruct (scans_sound (Json.budget s)) as (Hv & _ & _).
  specialize (Hv (Json.skip_ws s)). unfold Json.budget in *.
  intros E. rewrite E in Hv. apply Hv. lia.
Qed.

Lemma scan_map_exhausted {A B : Type} (f : A -> B) (x : Json.scan A) :
  Json.scan_map f x <> Json.Exhausted -> x <> Json.Exhausted.
Proof. destruct x; simpl; congruence. Qed.

Lemma scan_value_extends
  (m m' : string -> Json.scan (list (list N * Json.value)))
  (i i' : string -> Json.scan (list Json.value)) :
  extends m m' -> extends i i' ->
  extends (Json.scan_value m i) (Json.scan_value m' i').
Proof.
  intros Hm Hi s. unfold Json.scan_value.
  destruct s as [|c s']; [reflexivity|].
  destruct (Json.is_code c 34); [reflexivity|].
  destruct (Json.is_code c 123).
  { intros H. apply scan_map_exhausted in H. f_equal.
    unfold Json.JSONObject in *.
    destruct (Json.skip_ws s') as [|q r]; [reflexivity|].
    destruct (Json.is_code q 125); [reflexivity|].
    destruct (Json.is_code q 34); [|reflexivity]. now apply Hm. }
  destruct (Json.is_code c 91); [|reflexivity].
  intros H. apply scan_map_exhausted in H. f_equal.
  unfold Json.JSONArray in *.
  destruct (Json.skip_ws s') as [|q r]; [now apply Hi|].
  destruct (Json.is_code q 93); [reflexivity|]. now apply Hi.
Qed.

Lemma array_loop_extends (v v' : string -> Json.scan Json.value)
  (i i' : string -> Json.scan (list Json.value)) :
  extends v v' -> extends i i' ->
  extends (Json.array_loop v i) (Json.array_loop v' i').
Proof.
  intros Hv Hi s. unfold Json.array_loop. intros H.
  rewrite Hv by (intros E; now rewrite E in H).
  destruct (v s) as [x rest| |]; [|reflexivity|reflexivity].
  destruct (Json.skip_ws rest) as [|c r]; [reflexivity|].
  destruct (Json.is_code c 93); [reflexivity|].
  destruct (Json.is_code c 44); [|reflexivity].
  apply scan_map_exhausted in H. now rewrite Hi.
Qed.

Lemma object_loop_extends (v v' : string -> Json.scan Json.value)
  (m m' : string -> Json.scan (list (list N * Json.value))) :
  extends v v' -> extends m m' ->
  extends (Json.object_loop v m) (Json.object_loop v' m').
Proof.
  intros Hv Hm s. unfold Json.object_loop. intros H.
  destruct (Json.scanstring s) as [key rest| |]; [|reflexivity|reflexivity].
  destruct (Json.skip_ws rest) as [|c r]; [reflexivity|].
  destruct (Json.is_code c 58); [|reflexivity].
  rewrite Hv by (intros E; now rewrite E in H).
  destruct (v (Json.skip_ws r)) as [x rest'| |]; [|reflexivity|reflexivity].
  destruct (Json.skip_ws rest') as [|c' r']; [reflexivity|].
  destruct (Json.is_code c' 125); [reflexivity|].
  destruct (Json.is_code c' 44); [|reflexivity].
  destruct (Json.skip_ws r') as [|q r'']; [reflexivity|].
  destruct (Json.is_code q 34); [|reflexivity].
  apply scan_map_exhausted in H. now rewrite Hm.
Qed.

(** A scan that did not run out of budget gives the same result on any
    larger one. *)
Lemma scans_stable (fuel : nat) :
  forall fuel', (fuel <= fuel')%nat ->
  extends (Json.scan_once fuel) (Json.scan_once fuel') /\
  extends (Json.array_items fuel) (Json.array_items fuel') /\
  extends (Json.object_members fuel) (Json.object_members fuel').
Proof.
  induction fuel as [|fuel IH]; intros fuel' Hle.
  - repeat split; intros t H; now destruct H.
  - destruct fuel' as [|fuel']; [lia|].
    destruct (IH fuel') as (Hv & Hi & Hm); [lia|].
    repeat split; intros t; rewrite ?scan_once_S, ?array_items_S,
      ?object_members_S.
    + now apply scan_value_extends.
    + now apply array_loop_extends.
    + now apply object_loop_extends.
Qed.

Theorem scan_once_stable (s : string) (fuel : nat) :
  (Json.budget s <= fuel)%nat ->
  Json.scan_once fuel (Json.skip_ws s) =
  Json.scan_once (Json.budget s) (Json.skip_ws s).
Proof.
  intros H. destruct (scans_stable (Json.budget s) fuel H) as (Hv & _ & _).
  apply Hv, scan_once_budget.
Qed.

(** ** The loops of [edit_book] *)

Section Edit.

Variables (title new_title new_author : string) (new_year : Z)
          (new_genre : string).

Section Menu.

Variable answer : string.

Let edit (books : list Book) : list Book * message :=
  library_manager.edit_book books title new_title new_author new_year
    new_genre answer.

Lemma menu_edit_found (pre post : list Book) (book : Book) :
  no_match title pre -> title_matches title book = true ->
  edit (pre ++ book :: post) =
  (pre ++ library_manager.update book new_title new_author new_year
            new_genre answer :: post, BookUpdated).
Proof.
  intros Hpre Hb. subst edit.
  induction Hpre as [|x pre Hx Hpre IH]; simpl.
  - now rewrite Hb.
  - now rewrite Hx, IH.
Qed.

Lemma menu_edit_missing (books : list Book) :
  no_match title books -> edit books = (books, BookNotFound).
Proof.
  subst edit.
  induction 1 as [|x books Hx Hbooks IH]; simpl; [reflexivity|].
  now rewrite Hx, IH.
Qed.

End Menu.

End Edit.

Lemma web_edit_loop_missing (title : string) (e : app.edit_event)
  (books : list Book) :
  no_match title books -> app.edit_loop books title e = Some (books, false).
Proof.
  induction 1 as [|x books Hx Hbooks IH]; simpl; [reflexivity|].
  now rewrite Hx, IH.
Qed.

(** In the run that a click on Search starts, the widgets of the form
    give each key the value it has. *)
Lemma web_edit_loop_search (title : string) (books books' : list Book)
  (found : bool) :
  app.edit_loop books title app.SearchClicked = Some (books', found) ->
  books' = books.
Proof.
  revert books' found.
  induction books as [|book books IH]; intros books' found; simpl.
  - now intros [= <- _].
  - destruct (title_matches title book).
    + unfold app.number_input.
      destruct (Z.abs (Year book) <=? 2 ^ 53 - 1); [|discriminate].
      intros [= <- _]. now destruct book.
    + destruct (app.edit_loop books title app.SearchClicked)
        as [[rest' found']|]; [|discriminate].
      intros [= <- _]. now rewrite (IH rest' found').
Qed.

Lemma web_edit_outcome (st st' : session) (title : string)
  (e : app.edit_event) (msg : message) :
  app.edit_book st title e = Some (st', msg) ->
  st' = st /\ (msg = Nothing \/ msg = BookNotFound).
Proof.
  unfold app.edit_book. destruct e; cbn [app.button_search];
    try (intros [= <- <-]; split; [reflexivity | now left]).
  destruct (app.edit_loop (library st) title app.SearchClicked)
    as [[library' found]|] eqn:E; [|discriminate].
  apply web_edit_loop_search in E. subst library'.
  cbn [app.form_submit_button].
  destruct found; intros [= <- <-]; (split; [now destruct st|]);
    [now left | now right].
Qed.

Lemma or_str_empty (a b : string) :
  Py.or_str a b = if (a =? "")%string then b else a.
Proof. unfold Py.or_str, Py.truthy. now destruct (a =? "")%string. Qed.

Lemma or_int_zero (a b : Z) : Py.or_int a b = if a =? 0 then b else a.
Proof. unfold Py.or_int, Py.truthy_int. now destruct (a =? 0). Qed.

(** ** [in] on [str] *)

Lemma prefix_append (p s : string) :
  prefix p s = true <-> exists post, s = (p ++ post)%string.
Proof.
  revert s. induction p as [|a p IH]; intros s.
  - split; [exists s; reflexivity | destruct s; reflexivity].
  - destruct s as [|b s]; simpl.
    + split; [discriminate | intros [post H]; discriminate].
    + destruct (Ascii.ascii_dec a b) as [->|Hab].
      * rewrite IH. split; intros [post H]; exists post.
        -- now rewrite H.
        -- now injection H.
      * split; [discriminate | intros [post H]].
        injection H as H1 H2. now destruct Hab.
Qed.

(** [needle in hay] is true exactly when [needle] is a substring. *)
Lemma contains_substring (needle hay : string) :
  Py.contains needle hay = true <->
  exists pre post, hay = (pre ++ needle ++ post)%string.
Proof.
  induction hay as [|c hay IH].
  - cbn [Py.contains]. destruct (prefix needle "") eqn:E.
    + split; [intros _ | reflexivity].
      apply prefix_append in E. destruct E as [post E].
      now exists EmptyString, post.
    + split; [discriminate|]. intros (pre & post & H).
      destruct pre; [|discriminate].
      assert (P : prefix needle "" = true)
        by (apply prefix_append; now exists post).
      congruence.
  - cbn [Py.contains]. destruct (prefix needle (String c hay)) eqn:E.
    + split; [intros _ | reflexivity].
      apply prefix_append in E. destruct E as [post E].
      now exists EmptyString, post.
    + rewrite IH. split.
      * intros (pre & post & ->). now exists (String c pre), post.
      * intros (pre & post & H). destruct pre as [|c' pre].
        -- assert (P : prefix needle (String c hay) = true)
             by (apply prefix_append; now exists post).
           congruence.
        -- injection H as _ H. now exists pre, post.
Qed.

(** ** Saving *)

Lemma web_remove_loop_outcome (st st' : session) (title : string)
  (rest : list Book) (msg : message) :
  app.remove_loop st title rest = Some (st', msg) ->
  (msg = BookNotFound /\ st' = st) \/
  (msg = BookRemoved /\ file st' = Some (Json.dumps (library st'))).
Proof.
  induction rest as [|book rest IH]; simpl.
  - intros [= <- <-]. now left.
  - destruct (title_matches title book); [|exact IH].
    destruct (list_remove book (library st)); [|discriminate].
    intros [= <- <-]. now right.
Qed.

Lemma menu_turn_file (st st' : session) (c : library_manager.choice) :
  library_manager.turn st c = Some st' -> file st' = file st.
Proof.
  destruct c; simpl; try (now intros [= <-]).
  destruct (library_manager.remove_book (library st) title); simpl;
    [now intros [= <-] | discriminate].
Qed.

Lemma menu_loop_file (choices : list library_manager.choice) :
  forall st st' : session,
  library_manager.loop st choices = Some st' ->
  (In library_manager.Exit choices ->
   file st' = Some (Json.dumps (library st'))) /\
  (~ In library_manager.Exit choices -> file st' = file st).
Proof.
  induction choices as [|c choices IH]; intros st st' H.
  - injection H as <-. split; [intros [] | reflexivity].
  - assert (Step : c = library_manager.Exit \/
                   (c <> library_manager.Exit /\
                    exists st1, library_manager.turn st c = Some st1 /\
                                library_manager.loop st1 choices = Some st')).
    { destruct c; try (now left); right; (split; [discriminate|]);
        cbn [library_manager.loop] in H;
        destruct (library_manager.turn st _) as [st1|] eqn:E;
        try discriminate; now exists st1. }
    destruct Step as [-> | (Hc & st1 & Ht & Hl)].
    + simpl in H. injection H as <-. split; [reflexivity|].
      intros N. destruct N. now left.
    + destruct (IH _ _ Hl) as [I1 I2]. apply menu_turn_file in Ht. split.
      * intros [E | I]; [now destruct Hc | now apply I1].
      * intros N. rewrite <- Ht. apply I2. intros I. apply N. now right.
Qed.




(** ** Searching *)

(** The choice of the menu front-end does not reach the filter. *)
Lemma menu_search_choice_irrelevant (library : Library) (term : string)
  (c c' : library_manager.search_choice) :
  library_manager.search_book library c term =
  library_manager.search_book library c' term.
Proof. reflexivity. Qed.

(** The web front-end lists exactly the books whose chosen field contains
    the query, both lowered, in the order of the library. *)
Lemma web_search_exact (library : Library) (by_field : app.search_by)
  (query : string) :
  exists results,
    results = filter (fun book => Py.contains (Py.lower query)
                                    (Py.lower (app.field by_field book)))
                     library /\
    app.search_book library by_field query true =
    match results with [] => NoMatchingBooks | _ => Matching results end /\
    forall book,
      In book results <->
      In book library /\
      exists pre post,
        Py.lower (app.field by_field book) =
        (pre ++ Py.lower query ++ post)%string.
Proof.
  eexists. split; [reflexivity|]. split; [reflexivity|].
  intros book. rewrite filter_In, contains_substring. reflexivity.
Qed.

(** C2 fails in the menu front-end: asked for the books whose title
    contains "herbert", [search_book] of [library_manager.py] lists Dune,
    whose title does not contain it but whose author does; the web
    front-end, on the same library and query, lists nothing. *)
Theorem menu_search_ignores_choice :
  library_manager.search_book [dune; emma] library_manager.ByTitle "herbert"
  = Matching [dune] /\
  Py.contains (Py.lower "herbert") (Py.lower (Title dune)) = false /\
  app.search_book [dune; emma] app.ByTitle "herbert" true = NoMatchingBooks.
Proof. repeat split. Qed.

(** ** Adding *)

(** C3 (as amended): [add_book] of [app.py] refuses, with a message and
    without touching the list or the file, exactly when the title, the
    author or the genre is the empty string (it does not trim), and
    otherwise appends one book made of the five values and saves;
    [add_book] of [library_manager.py] checks nothing and always appends
    one book. *)
Theorem add_book_validation (st : session) (title author : string) (year : Z)
  (genre : string) (read_status : bool) (answer : string) :
  app.add_book st title author year genre read_status true =
  (if (title =? "")%string || (author =? "")%string || (genre =? "")%string
   then (st, FillAllFields)
   else (mkSession
           (library st ++ [mkBook title author year genre read_status])
           (Some (Json.dumps
              (library st ++ [mkBook title author year genre read_status]))),
         BookAdded)) /\
  library_manager.add_book (library st) title author year genre answer =
  (library st ++ [mkBook title author year genre (said_yes answer)],
   BookAdded).
Proof.
  split; [|reflexivity].
  unfold app.add_book, Py.truthy.
  destruct (title =? "")%string, (author =? "")%string,
    (genre =? "")%string; reflexivity.
Qed.

(** C3, as it is stated, fails: the web front-end accepts a title of one
    space, which is empty once trimmed, and the menu front-end accepts
    empty strings. *)
Lemma add_book_accepts_blank :
  Py.strip " " = "" /\
  app.add_book (mkSession [] None) " " "Herbert" 1965 "Sci-Fi" false true =
  (mkSession [mkBook " " "Herbert" 1965 "Sci-Fi" false]
     (save_library [mkBook " " "Herbert" 1965 "Sci-Fi" false]), BookAdded) /\
  library_manager.add_book [] "" "" 0 "" "" =
  ([mkBook "" "" 0 "" false], BookAdded).
Proof. repeat split. Qed.

(** ** Editing *)

(** C4 (as amended): [edit_book] of [library_manager.py] acts on the
    first book whose title matches case-insensitively and leaves every
    other book as it is; the title, the author and the genre keep their
    prior value when the new one is the empty string and take the new one
    otherwise, the year is kept when the new one is 0, and the read flag
    is always set from the answer.  When no title matches, [edit_book] of
    both front-ends reports it and changes nothing.  (What the form of
    [app.py] does with a book it found is no part of this statement.) *)
Theorem edit_book_policy (books : list Book)
  (title new_title new_author : string)
  (new_year : Z) (new_genre answer : string) (f : option string) :
  (no_match title books /\
   library_manager.edit_book books title new_title new_author new_year
     new_genre answer = (books, BookNotFound) /\
   app.edit_book (mkSession books f) title app.SearchClicked =
   Some (mkSession books f, BookNotFound))
  \/
  (exists pre book post,
     books = pre ++ book :: post /\ no_match title pre /\
     title_matches title book = true /\
     library_manager.edit_book books title new_title new_author new_year
       new_genre answer =
     (pre ++ mkBook (if (new_title =? "")%string then Title book
                     else new_title)
                    (if (new_author =? "")%string then Author book
                     else new_author)
                    (if new_year =? 0 then Year book else new_year)
                    (if (new_genre =? "")%string then Genre book
                     else new_genre)
                    (said_yes answer) :: post,
      BookUpdated)).
Proof.
  destruct (first_match_split title books)
    as [Hno | (pre & book & post & -> & Hpre & Hb)].
  - left. split; [assumption|]. split.
    + now apply menu_edit_missing.
    + unfold app.edit_book. cbn [library file app.button_search].
      now rewrite web_edit_loop_missing.
  - right. exists pre, book, post. repeat split; try assumption.
    rewrite menu_edit_found by assumption.
    unfold library_manager.update.
    now rewrite !or_str_empty, or_int_zero.
Qed.

(** C4, as it is stated, fails: an edit whose every answer is empty (and
    0 for the year) does not keep every field, it sets the read flag of a
    book that was read to false. *)
Lemma edit_resets_read :
  library_manager.edit_book [emma] "emma" "" "" 0 "" "" =
  ([mkBook "Emma" "Austen" 1815 "Novel" false], BookUpdated) /\
  Read emma = true.
Proof. split; reflexivity. Qed.

Lemma web_edit_loop_shown (title : string) (pre post : list Book)
  (book : Book) :
  no_match title pre -> title_matches title book = true ->
  Z.abs (Year book) <= 2 ^ 53 - 1 ->
  app.edit_loop (pre ++ book :: post) title app.SearchClicked =
  Some (pre ++ book :: post, true).
Proof.
  intros Hpre Hb Hy. induction Hpre as [|x pre Hx Hpre IH]; simpl.
  - rewrite Hb. unfold app.number_input.
    apply Z.leb_le in Hy. rewrite Hy. now destruct book.
  - now rewrite Hx, IH.
Qed.

(** X21: the page of [edit_book] of [app.py] changes nothing.  Its form
    is built only in the run that a click on Search starts, where every
    widget of it returns the value that the book has and Save Changes is
    not pressed; the run that a click on Save Changes starts does not
    reach the form, and what was typed in it is dropped.  No run changes
    the list or the file, and none reports an update; a book that is
    found is shown, no more. *)
Theorem web_edit_changes_nothing (st : session) (title : string) :
  (forall (e : app.edit_event) (st' : session) (msg : message),
     app.edit_book st title e = Some (st', msg) ->
     st' = st /\ (msg = Nothing \/ msg = BookNotFound)) /\
  (forall (new_title new_author : string) (new_year : Z)
          (new_genre : string) (new_read : bool),
     app.edit_book st title
       (app.SaveChangesClicked new_title new_author new_year new_genre
          new_read) = Some (st, Nothing)) /\
  (forall (pre post : list Book) (book : Book),
     library st = pre ++ book :: post -> no_match title pre ->
     title_matches title book = true ->
     Z.abs (Year book) <= 2 ^ 53 - 1 ->
     app.edit_book st title app.SearchClicked = Some (st, Nothing)).
Proof.
  split; [|split].
  - intros e st' msg. apply web_edit_outcome.
  - reflexivity.
  - intros pre post book E Hpre Hb Hy. unfold app.edit_book.
    cbn [app.button_search]. rewrite E.
    rewrite web_edit_loop_shown by assumption.
    cbn [app.form_submit_button]. rewrite <- E. now destruct st.
Qed.

(** C10: in [edit_book] of [library_manager.py], on the first book whose
    title matches, a new year of 0 keeps the year the book had and any
    other new year replaces it; the read flag becomes whether the answer,
    trimmed and lowered, is "yes", whatever it was before. *)
Theorem edit_year_zero_keeps_year (pre post : list Book) (book : Book)
  (title new_title new_author : string) (new_year : Z)
  (new_genre answer : string) :
  no_match title pre -> title_matches title book = true ->
  exists book',
    library_manager.edit_book (pre ++ book :: post) title new_title
      new_author new_year new_genre answer =
    (pre ++ book' :: post, BookUpdated) /\
    (new_year = 0 -> Year book' = Year book) /\
    (new_year <> 0 -> Year book' = new_year) /\
    Read book' = (Py.lower (Py.strip answer) =? "yes")%string.
Proof.
  intros Hpre Hb. eexists. split; [now apply menu_edit_found|].
  cbn [library_manager.update Year Read]. rewrite or_int_zero.
  repeat split.
  - now intros ->.
  - intros H. apply Z.eqb_neq in H. now rewrite H.
Qed.

Lemma edit_year_zero_keeps_year_witness :
  exists book',
    library_manager.edit_book ([emma] ++ dune :: [dune_again]) "DUNE"
      "" "Frank Herbert" 0 "" "yes" =
    ([emma] ++ book' :: [dune_again], BookUpdated) /\
    (0 = 0 -> Year book' = Year dune) /\
    (0 <> 0 -> Year book' = 0) /\
    Read book' = (Py.lower (Py.strip "yes") =? "yes")%string.
Proof.
  apply (edit_year_zero_keeps_year [emma] [dune_again] dune "DUNE"
           "" "Frank Herbert" 0 "" "yes").
  - repeat constructor.
  - reflexivity.
Defined.

(** ** Removing *)

(** C5: [remove_book] of both front-ends deletes the first book, in the
    order of the list, whose title equals the given one case-insensitively,
    and only that one, whatever follows it; when no book matches it
    reports that the book was not found and the list (and, in the web
    front-end, the file) is unchanged. *)
Theorem remove_book_first_match (books : list Book) (title : string)
  (f : option string) :
  (no_match title books /\
   library_manager.remove_book books title = Some (books, BookNotFound) /\
   app.remove_book (mkSession books f) title true =
   Some (mkSession books f, BookNotFound))
  \/
  (exists pre book post,
     books = pre ++ book :: post /\ no_match title pre /\
     title_matches title book = true /\
     library_manager.remove_book books title =
     Some (pre ++ post, BookRemoved) /\
     app.remove_book (mkSession books f) title true =
     Some (mkSession (pre ++ post) (Some (Json.dumps (pre ++ post))),
           BookRemoved)).
Proof.
  destruct (first_match_split title books)
    as [Hno | (pre & book & post & -> & Hpre & Hb)].
  - left. split; [assumption|]. split.
    + now apply menu_remove_missing.
    + now apply web_remove_missing.
  - right. exists pre, book, post. repeat split; try assumption.
    + now apply menu_remove_found.
    + now apply web_remove_found.
Qed.

(** C9: [remove_book] of both front-ends returns, with its message, the
    list it was given when no title matches, and otherwise that list with
    the first book of that title taken out: every other book is there as
    it was, in the same order. *)
Theorem remove_book_frame (books : list Book) (title : string)
  (f : option string) :
  exists (books' : list Book) (msg : message),
    library_manager.remove_book books title = Some (books', msg) /\
    (exists st', app.remove_book (mkSession books f) title true =
                 Some (st', msg) /\ library st' = books') /\
    (no_match title books -> msg = BookNotFound /\ books' = books) /\
    ((msg = BookNotFound /\ books' = books /\ no_match title books) \/
     (msg = BookRemoved /\
      exists pre book post,
        books = pre ++ book :: post /\ no_match title pre /\
        title_matches title book = true /\ books' = pre ++ post)).
Proof.
  destruct (first_match_split title books)
    as [Hno | (pre & book & post & -> & Hpre & Hb)].
  - exists books, BookNotFound. split; [now apply menu_remove_missing|].
    split; [|split; [now split | now left]].
    exists (mkSession books f). split; [|reflexivity].
    now apply web_remove_missing.
  - exists (pre ++ post), BookRemoved.
    split; [now apply menu_remove_found|]. split; [|split].
    + eexists. split; [now apply web_remove_found | reflexivity].
    + intros N. apply Forall_app in N. destruct N as [_ N].
      inversion N as [|? ? Hf _]. congruence.
    + right. split; [reflexivity|]. now exists pre, book, post.
Qed.

(** Duplicates: of two books titled alike, the first goes and the second
    stays. *)
Example remove_book_duplicates :
  library_manager.remove_book [emma; dune; dune_again] "dune" =
  Some ([emma; dune_again], BookRemoved) /\
  app.remove_book (mkSession [emma; dune; dune_again] None) "dune" true =
  Some (mkSession [emma; dune_again] (save_library [emma; dune_again]),
        BookRemoved) /\
  library_manager.remove_book [emma] "dune" = Some ([emma], BookNotFound).
Proof. repeat split. Qed.

(** ** Loading and saving *)

(** [json.loads] fails only on a decoding error: on text that holds no
    value at its start, or that goes on after the value. *)
Lemma loads_error (s : string) :
  Json.loads s = None <->
  Json.scan_once (Json.budget s) (Json.skip_ws s) = Json.DecodeError \/
  exists v rest c r,
    Json.scan_once (Json.budget s) (Json.skip_ws s) = Json.Found v rest /\
    Json.skip_ws rest = String c r.
Proof.
  unfold Json.loads. pose proof (scan_once_budget s) as B.
  destruct (Json.scan_once (Json.budget s) (Json.skip_ws s))
    as [v rest| |]; [| |now destruct B].
  - destruct (Json.skip_ws rest) as [|c r] eqn:E.
    + split; [discriminate|].
      intros [H | (v' & rest' & c & r & H & H')]; [discriminate|].
      injection H as _ <-. congruence.
    + split; [intros _ | reflexivity]. right. now exists v, rest, c, r.
  - split; [now left | reflexivity].
Qed.

(** ** The decoder under the limits of the interpreter *)

Module InterpreterFacts.

Import Interpreter.


Section Agreement.

Variable lim : limits.











End Agreement.

(** ** The digits of an integer literal *)








(** ** Texts within the limits *)


Section Calm.

Variable lim : limits.








(** ** Texts beyond the limits *)






End Calm.

(** An integer of [n] digits. *)

Section Long.

Variable lim : limits.






End Long.

End InterpreterFacts.




(** Files that do not decode. *)
Example load_library_malformed :
  load_library (Some "") = Json.Array [] /\
  load_library (Some "[1 2]") = Json.Array [] /\
  load_library (Some "{") = Json.Array [] /\
  load_library (Some "[] []") = Json.Array [] /\
  load_library (Some "library") = Json.Array [].
Proof. repeat split. Qed.

(** C8: what [save_library] writes, [load_library] reads back as the same
    list of the same books, the five fields of each as they were; this
    holds for every list of books, those that [add_book] builds among
    them. *)
Theorem save_load_round_trip (books : Library) :
  load_library (save_library books) = Json.of_library books /\
  Json.as_library (load_library (save_library books)) = Some books.
Proof.
  unfold load_library, save_library. rewrite loads_dumps.
  split; [reflexivity | apply as_library_of_library].
Qed.

(** The end-to-end example of the specification: add to the empty library,
    exit, and start again. *)
Example saved_session_restarts :
  exists f,
    library_manager.main None
      [library_manager.Add "Dune" "Herbert" 1965 "Sci-Fi" "no";
       library_manager.Exit] = Some (mkSession [dune] f) /\
    library_manager.main f [] = Some (mkSession [dune] f).
Proof. eexists. split; reflexivity. Qed.

(** ** Statistics *)

Lemma sum_ones (A : Type) (l : list A) (z : Z) :
  fold_left Z.add (map (fun _ : A => 1) l) z = z + Z.of_nat (List.length l).
Proof.
  revert z. induction l as [|a l IH]; intros z.
  - simpl. lia.
  - cbn [map fold_left List.length]. rewrite IH. lia.
Qed.

(** C7: [display_statistics] raises nothing; its total is the number of
    books, its count of read books is the number of books whose flag is
    true, and its percentage is the float [read / total * 100] when there
    is a book and the integer 0 when there is none. *)
Theorem statistics_of_library (books : Library) :
  let total := Z.of_nat (List.length books) in
  let read := Z.of_nat (List.length (filter Read books)) in
  display_statistics books =
  Some (mkStatistics total read
          (if total >? 0
           then PyFloat (PrimFloat.mul
                           (PrimFloat.div (float_of_int read)
                                          (float_of_int total))
                           (float_of_int 100))
           else PyInt 0)) /\
  display_statistics [] = Some (mkStatistics 0 0 (PyInt 0)).
Proof.
  cbv zeta. split; [|reflexivity].
  unfold display_statistics, count_read, truediv.
  rewrite sum_ones, Z.add_0_l.
  destruct (Z.of_nat (List.length books) >? 0) eqn:E; [|reflexivity].
  destruct (Z.of_nat (List.length books) =? 0) eqn:Z0; [|reflexivity].
  apply Z.eqb_eq in Z0. rewrite Z0 in E. discriminate.
Qed.

(** The example of the specification: two books read out of three. *)
Example statistics_two_of_three :
  display_statistics [emma; dune; dune_again] =
  Some (mkStatistics 3 2 (PyFloat 0x1.0aaaaaaaaaaaap+6%float)).
Proof. vm_compute. reflexivity. Qed.

(** ** The prompts of the console *)

Section GetValidInput.

Context {A : Type} (input_type : string -> option A).


(** X1: [get_valid_input] returns the conversion of the first line that
    [input_type] accepts (once trimmed) and leaves the lines after it
    unread; the lines before it are all refused.  It raises (the lines run
    out) exactly when every line is refused. *)
Theorem get_valid_input_first_accepted (lines : list string) :
  (Forall (rejected input_type) lines /\
   console.get_valid_input input_type lines = None) \/
  (exists bad line rest value,
     lines = bad ++ line :: rest /\ Forall (rejected input_type) bad /\
     input_type (Py.strip line) = Some value /\
     console.get_valid_input input_type lines = Some (value, rest)).
Proof.
  induction lines as [|line lines IH].
  - left. split; [constructor | reflexivity].
  - cbn [console.get_valid_input].
    destruct (input_type (Py.strip line)) as [value|] eqn:E.
    + right. exists [], line, lines, value.
      repeat split; [constructor | assumption].
    + destruct IH as [[Hall Hn] | (bad & l & rest & v & -> & Hb & Hv & Hr)].
      * left. split; [now constructor | assumption].
      * right. exists (line :: bad), l, rest, v.
        repeat split; [now constructor | assumption | assumption].
Qed.

End GetValidInput.


(** ** [int] of what [str] printed *)

Lemma int_digits_step (c : ascii) (s : string) (acc : Z) (b : bool) :
  Json.is_digit c = true ->
  Py.int_digits (String c s) acc b =
  Py.int_digits s (10 * acc + Z.of_N (Py.code c - 48)) true.
Proof.
  unfold Json.is_digit. intros H. cbn [Py.int_digits]. cbv zeta.
  now rewrite H.
Qed.

Ltac digit_step :=
  cbn [NilEmpty.string_of_uint Pos.of_uint_acc Pos.of_uint];
  rewrite int_digits_step by reflexivity;
  match goal with
  | |- Py.int_digits _ (_ + Z.of_N (Py.code ?c - 48)) true = _ =>
      let k := eval vm_compute in (Z.of_N (Py.code c - 48)) in
      change (Z.of_N (Py.code c - 48)) with k
  end.

Lemma int_digits_acc (d : Decimal.uint) (p : positive) (b : bool) :
  d <> Decimal.Nil \/ b = true ->
  Py.int_digits (NilEmpty.string_of_uint d) (Zpos p) b =
  Some (Zpos (Pos.of_uint_acc d p)).
Proof.
  revert p b. induction d; intros p b H;
    try (digit_step;
         match goal with
         | |- Py.int_digits _ ?a true = Some (Z.pos (Pos.of_uint_acc _ ?q)) =>
             replace a with (Z.pos q) by lia; apply IHd; now right
         end).
  destruct H as [H | ->]; [now destruct H | reflexivity].
Qed.

Lemma int_digits_uint (d : Decimal.uint) (b : bool) :
  d <> Decimal.Nil \/ b = true ->
  Py.int_digits (NilEmpty.string_of_uint d) 0 b =
  Some (Z.of_N (Pos.of_uint d)).
Proof.
  revert b. induction d; intros b H;
    try (digit_step; apply (int_digits_acc d); now right).
  - destruct H as [H | ->]; [now destruct H | reflexivity].
  - digit_step. apply IHd. now right.
Qed.

Lemma digits_not_space (d : Decimal.uint) (c : ascii) :
  In c (list_ascii_of_string (NilEmpty.string_of_uint d)) ->
  Py.isspace c = false.
Proof.
  induction d; simpl; try tauto;
    (intros [<- | H]; [reflexivity | now apply IHd]).
Qed.

Lemma lstrip_head (c : ascii) (s : string) :
  Py.isspace c = false -> Py.lstrip (String c s) = String c s.
Proof. intros H. simpl. now rewrite H. Qed.

Lemma rstrip_no_space (s : string) :
  (forall c, In c (list_ascii_of_string s) -> Py.isspace c = false) ->
  Py.rstrip s = s.
Proof.
  induction s as [|c s IH]; intros H; [reflexivity|].
  cbn [Py.rstrip]. rewrite IH by (intros x Hx; apply H; now right).
  destruct s; [|reflexivity].
  now rewrite (H c) by now left.
Qed.

Lemma strip_no_space (s : string) :
  (forall c, In c (list_ascii_of_string s) -> Py.isspace c = false) ->
  Py.strip s = s.
Proof.
  intros H. unfold Py.strip.
  destruct s as [|c s]; [reflexivity|].
  rewrite lstrip_head by (apply H; now left).
  now apply rstrip_no_space.
Qed.

Lemma int_of_uint (p : positive) :
  Py.int (NilEmpty.string_of_uint (Pos.to_uint p)) = Some (Zpos p) /\
  Py.int (String "-" (NilEmpty.string_of_uint (Pos.to_uint p))) =
  Some (Zneg p).
Proof.
  pose proof (DecimalPos.Unsigned.of_to p) as V.
  pose proof (DecimalPos.Unsigned.to_uint_nonnil p) as N.
  pose proof (digits_not_space (Pos.to_uint p)) as W.
  pose proof (int_digits_uint (Pos.to_uint p) false (or_introl N)) as D.
  rewrite V in D. unfold Py.int. split.
  - rewrite strip_no_space by assumption.
    destruct (Pos.to_uint p); [now destruct N | exact D ..].
  - rewrite strip_no_space
      by (intros c [<- | H]; [reflexivity | now apply W]).
    simpl. now rewrite D.
Qed.

(** [int(str(z)) == z] *)
Lemma int_str (z : Z) : Py.int (Py.str_of_int z) = Some z.
Proof.
  destruct z as [|p|p]; [reflexivity | |]; unfold Py.str_of_int; simpl;
    pose proof (DecimalPos.Unsigned.to_uint_nonnil p) as N;
    destruct (int_of_uint p) as [P M].
  - unfold NilZero.string_of_uint.
    destruct (Pos.to_uint p); [now destruct N | exact P ..].
  - unfold NilZero.string_of_uint.
    destruct (Pos.to_uint p); [now destruct N | exact M ..].
Qed.

Lemma strip_str_of_int (z : Z) :
  Py.strip (Py.str_of_int z) = Py.str_of_int z.
Proof.
  apply strip_no_space.
  destruct z as [|p|p]; unfold Py.str_of_int; simpl;
    [intros c [<- | []]; reflexivity | |];
    unfold NilZero.string_of_uint;
    pose proof (digits_not_space (Pos.to_uint p)) as W;
    destruct (Pos.to_uint p); simpl in *;
    intros c H; repeat destruct H as [<- | H]; try reflexivity;
    try (now destruct H); apply W; auto.
Qed.

(** X2: the year prompt reads back what the table shows: the text that
    [str] makes of any year is accepted by [get_valid_input] with [int] at
    the first try, as that year, negative years included. *)
Theorem year_shown_is_read_back (year : Z) (rest : list string) :
  console.get_valid_input Py.int (Py.str_of_int year :: rest) =
  Some (year, rest).
Proof.
  cbn [console.get_valid_input].
  now rewrite strip_str_of_int, int_str.
Qed.

(** ** [strip] of what [Prompt.ask] trimmed *)






(** ** [add_book], [remove_book] and [edit_book] at the console *)



Lemma find_no_match (title : string) (books : list Book) :
  no_match title books <-> find (title_matches title) books = None.
Proof.
  unfold no_match. induction books as [|b books IH]; simpl.
  - split; [reflexivity | constructor].
  - destruct (title_matches title b) eqn:E.
    + split; [|discriminate]. intros H. inversion H; subst. congruence.
    + rewrite <- IH. split.
      * intros H. now inversion H.
      * intros H. now constructor.
Qed.


(** X4: at the console, a title that no book has costs [remove_book] and
    [edit_book] one line: they report it, change nothing and leave the
    lines that follow unread, and nothing with a field in it is
    printed. *)
Theorem console_title_not_found (renders : string -> bool)
  (library : Library) (line : string) (rest : list string) :
  no_match (Py.strip line) library ->
  console.remove_book library (line :: rest) =
  Some (library, BookNotFound, rest) /\
  console.edit_book renders library (line :: rest) =
  Some (library, BookNotFound, rest).
Proof.
  intros H. unfold console.remove_book, console.edit_book.
  cbn [console.ask]. cbv zeta.
  rewrite (menu_remove_missing _ _ H).
  apply find_no_match in H. now rewrite H.
Qed.

Lemma console_title_not_found_witness :
  console.remove_book [emma; dune] [" Ulysses "; "Joyce"; "8"] =
  Some ([emma; dune], BookNotFound, ["Joyce"; "8"]) /\
  console.edit_book (fun _ => false) [emma; dune]
    [" Ulysses "; "Joyce"; "8"] =
  Some ([emma; dune], BookNotFound, ["Joyce"; "8"]).
Proof.
  apply (console_title_not_found (fun _ => false) [emma; dune] " Ulysses "
           ["Joyce"; "8"]).
  repeat constructor.
Defined.



(** ** Adding, then removing *)

Lemma no_match_app (title : string) (a b : list Book) :
  no_match title (a ++ b) <-> no_match title a /\ no_match title b.
Proof. apply Forall_app. Qed.

Lemma title_matches_own (book : Book) :
  title_matches (Title book) book = true.
Proof. unfold title_matches. apply String.eqb_refl. Qed.

(** X6: a book added under a title that no book has is the one that a
    removal by that title takes out: the library is as it was before the
    two, and in the web front-end the file holds it. *)
Theorem add_then_remove (books : list Book) (title author : string)
  (year : Z) (genre answer : string) (read_status : bool)
  (f : option string) :
  no_match title books ->
  Py.truthy title && Py.truthy author && Py.truthy genre = true ->
  library_manager.remove_book
    (fst (library_manager.add_book books title author year genre answer))
    title = Some (books, BookRemoved) /\
  app.remove_book
    (fst (app.add_book (mkSession books f) title author year genre
            read_status true)) title true =
  Some (mkSession books (Some (Json.dumps books)), BookRemoved).
Proof.
  intros H V. split.
  - cbn [library_manager.add_book fst].
    rewrite <- (List.app_nil_r books) at 2.
    apply menu_remove_found; [assumption | apply title_matches_own].
  - unfold app.add_book. rewrite V. cbn [fst library].
    rewrite (web_remove_found title books [] _ _ H (title_matches_own
               (mkBook title author year genre read_status))).
    now rewrite List.app_nil_r.
Qed.

Lemma add_then_remove_witness :
  library_manager.remove_book
    (fst (library_manager.add_book [emma] "Dune" "Herbert" 1965 "Sci-Fi"
            "no")) "Dune" = Some ([emma], BookRemoved) /\
  app.remove_book
    (fst (app.add_book (mkSession [emma] None) "Dune" "Herbert" 1965
            "Sci-Fi" false true)) "Dune" true =
  Some (mkSession [emma] (Some (Json.dumps [emma])), BookRemoved).
Proof.
  apply (add_then_remove [emma] "Dune" "Herbert" 1965 "Sci-Fi" "no" false
           None).
  - repeat constructor.
  - reflexivity.
Defined.

(** X7: after a removal, a second removal by the same title reports that
    the book was not found exactly when the library held no other book of
    that title. *)
Theorem remove_twice (pre post : list Book) (book : Book) (title : string) :
  no_match title pre -> title_matches title book = true ->
  library_manager.remove_book (pre ++ book :: post) title =
  Some (pre ++ post, BookRemoved) /\
  (no_match title post <->
   library_manager.remove_book (pre ++ post) title =
   Some (pre ++ post, BookNotFound)).
Proof.
  intros Hpre Hb. split; [now apply menu_remove_found|]. split.
  - intros Hpost. apply menu_remove_missing. now apply no_match_app.
  - intros H.
    destruct (first_match_split title post)
      as [Hno | (p & b & q & -> & Hp & Hq)]; [assumption|].
    rewrite List.app_assoc in H.
    rewrite (menu_remove_found title (pre ++ p) q b) in H;
      [discriminate | now apply no_match_app | assumption].
Qed.

Lemma remove_twice_witness :
  library_manager.remove_book ([emma] ++ dune :: [dune_again]) "dune" =
  Some ([emma] ++ [dune_again], BookRemoved) /\
  (no_match "dune" [dune_again] <->
   library_manager.remove_book ([emma] ++ [dune_again]) "dune" =
   Some ([emma] ++ [dune_again], BookNotFound)).
Proof.
  apply (remove_twice [emma] [dune_again] dune "dune").
  - repeat constructor.
  - reflexivity.
Defined.

(** ** What a search lists *)

Lemma contains_refl (s : string) : Py.contains s s = true.
Proof.
  apply contains_substring. exists EmptyString, EmptyString.
  simpl. induction s as [|c s IH]; simpl; congruence.
Qed.

Lemma contains_empty (s : string) : Py.contains "" s = true.
Proof. destruct s; reflexivity. Qed.

Lemma filter_all {A : Type} (p : A -> bool) (l : list A) :
  (forall x, In x l -> p x = true) -> filter p l = l.
Proof.
  induction l as [|x l IH]; intros H; [reflexivity|].
  simpl. rewrite (H x) by now left.
  f_equal. apply IH. intros y Hy. apply H. now right.
Qed.

(** X8: a search for nothing lists every book: in the menu front-end a
    term of white space only, in the web front-end the empty query,
    whatever the field chosen. *)
Theorem search_blank_lists_all (book : Book) (books : list Book)
  (by_field : app.search_by) (choice : library_manager.search_choice)
  (term : string) :
  Py.strip term = "" ->
  app.search_book (book :: books) by_field "" true =
  Matching (book :: books) /\
  library_manager.search_book (book :: books) choice term =
  Matching (book :: books).
Proof.
  intros H. unfold app.search_book, library_manager.search_book.
  rewrite H. cbn [Py.lower].
  rewrite !filter_all; [now split | |];
    intros x _; now rewrite ?contains_empty.
Qed.

Lemma search_blank_lists_all_witness :
  app.search_book [dune; emma] app.ByAuthor "" true =
  Matching [dune; emma] /\
  library_manager.search_book [dune; emma] library_manager.ByTitle "   " =
  Matching [dune; emma].
Proof.
  apply (search_blank_lists_all dune [emma] app.ByAuthor
           library_manager.ByTitle "   ").
  reflexivity.
Defined.

(** X9: a book of the library is among the results of a search for its own
    title, whatever the case of the letters typed, in both front-ends. *)
Theorem search_finds_own_title (books : list Book) (book : Book)
  (query : string) (choice : library_manager.search_choice) :
  In book books -> Py.lower (Py.strip query) = Py.lower (Title book) ->
  (exists results,
     library_manager.search_book books choice query = Matching results /\
     In book results) /\
  (exists results,
     app.search_book books app.ByTitle (Py.strip query) true =
     Matching results /\ In book results).
Proof.
  intros Hin Hq. split.
  - unfold library_manager.search_book.
    set (results := filter _ books).
    assert (R : In book results).
    { apply filter_In. split; [assumption|].
      now rewrite Hq, contains_refl. }
    exists results. split; [|assumption].
    destruct results; [destruct R | reflexivity].
  - unfold app.search_book.
    set (results := filter _ books).
    assert (R : In book results).
    { apply filter_In. split; [assumption|].
      cbn [app.field]. now rewrite Hq, contains_refl. }
    exists results. split; [|assumption].
    destruct results; [destruct R | reflexivity].
Qed.

Lemma search_finds_own_title_witness :
  (exists results,
     library_manager.search_book [emma; dune] library_manager.ByAuthor
       " DUNE " = Matching results /\ In dune results) /\
  (exists results,
     app.search_book [emma; dune] app.ByTitle (Py.strip " DUNE ") true =
     Matching results /\ In dune results).
Proof.
  apply (search_finds_own_title [emma; dune] dune " DUNE "
           library_manager.ByAuthor).
  - right. left. reflexivity.
  - reflexivity.
Defined.

(** X10: the menu search lists a book exactly when the web search by
    title or the web search by author lists it, for the trimmed term. *)
Theorem menu_search_is_either_field (books : list Book)
  (choice : library_manager.search_choice) (term : string) (book : Book) :
  (exists results,
     library_manager.search_book books choice term = Matching results /\
     In book results) <->
  (exists results,
     app.search_book books app.ByTitle (Py.strip term) true =
     Matching results /\ In book results) \/
  (exists results,
     app.search_book books app.ByAuthor (Py.strip term) true =
     Matching results /\ In book results).
Proof.
  assert (M : forall p : Book -> bool,
            (exists results,
               match filter p books with
               | [] => NoMatchingBooks
               | _ => Matching (filter p books)
               end = Matching results /\ In book results) <->
            In book books /\ p book = true).
  { intros p. rewrite <- filter_In. split.
    - intros (results & H & Hin).
      destruct (filter p books); [discriminate|]. now injection H as ->.
    - intros Hin. exists (filter p books). split; [|assumption].
      destruct (filter p books); [destruct Hin | reflexivity]. }
  unfold library_manager.search_book, app.search_book.
  cbv zeta. rewrite !M. cbn [app.field]. rewrite orb_true_iff. tauto.
Qed.

(** ** What a run leaves in the file *)

Lemma web_main_file (file0 : option string) (m : app.menu) (st : session)
  (msg : message) :
  app.main file0 m = Some (st, msg) ->
  file st = if reports_success msg then Some (Json.dumps (library st))
            else file0.
Proof.
  unfold app.main.
  destruct (Json.as_library (load_library file0)) as [library0|];
    [|discriminate].
  destruct m; cbv zeta.
  - unfold app.add_book. destruct submitted; [|now intros [= <- <-]].
    destruct (Py.truthy title && Py.truthy author && Py.truthy genre);
      now intros [= <- <-].
  - unfold app.remove_book. destruct clicked; [|now intros [= <- <-]].
    intros H. apply web_remove_loop_outcome in H.
    destruct H as [[-> ->] | [-> H]]; [reflexivity | exact H].
  - intros H. apply web_edit_outcome in H.
    now destruct H as [-> [-> | ->]].
  - unfold app.search_book. intros [= <- <-].
    destruct clicked; [|reflexivity]. now destruct (filter _ library0).
  - now intros [= <- <-].
  - now intros [= <- <-].
Qed.

Lemma load_saved (books : Library) :
  Json.as_library (load_library (save_library books)) = Some books.
Proof.
  unfold load_library, save_library. rewrite loads_dumps.
  apply as_library_of_library.
Qed.

(** X11: a run of the web front-end that reports no success (an error, a
    list of results, or nothing) leaves the file as it found it. *)
Theorem web_failure_keeps_file (file0 : option string) (m : app.menu)
  (st : session) (msg : message) :
  app.main file0 m = Some (st, msg) -> reports_success msg = false ->
  file st = file0.
Proof. intros H F. apply web_main_file in H. now rewrite F in H. Qed.

Lemma web_failure_keeps_file_witness :
  app.main (Some "[1,") (app.AddABook "Dune" "" 1965 "Sci-Fi" false true) =
  Some (mkSession [] (Some "[1,"), FillAllFields) /\
  file (mkSession [] (Some "[1,")) = Some "[1,".
Proof.
  split; [reflexivity|].
  apply (web_failure_keeps_file (Some "[1,")
           (app.AddABook "Dune" "" 1965 "Sci-Fi" false true)
           (mkSession [] (Some "[1,")) FillAllFields); reflexivity.
Defined.

(** X12: the run of the web front-end that follows a successful one
    starts from the list that the successful one ended with. *)
Theorem web_next_run_loads (file0 : option string) (m : app.menu)
  (st : session) (msg : message) :
  app.main file0 m = Some (st, msg) -> reports_success msg = true ->
  app.main (file st) app.DisplayAllBooks = Some (st, Nothing).
Proof.
  intros H S. apply web_main_file in H. rewrite S in H.
  unfold app.main. rewrite H.
  change (Some (Json.dumps (library st))) with (save_library (library st)).
  rewrite load_saved. cbv zeta.
  change (save_library (library st)) with (Some (Json.dumps (library st))).
  rewrite <- H. now destruct st.
Qed.

Lemma web_next_run_loads_witness :
  app.main (file (mkSession [dune] (save_library [dune])))
    app.DisplayAllBooks =
  Some (mkSession [dune] (save_library [dune]), Nothing).
Proof.
  apply (web_next_run_loads None
           (app.AddABook "Dune" "Herbert" 1965 "Sci-Fi" false true)
           (mkSession [dune] (save_library [dune])) BookAdded);
    reflexivity.
Defined.

(** X13: a menu session that ended by Exit, started again on the file it
    left, holds the same list. *)
Theorem menu_restart (file0 : option string)
  (choices : list library_manager.choice) (st : session) :
  library_manager.main file0 choices = Some st ->
  In library_manager.Exit choices ->
  library_manager.main (file st) [] = Some st.
Proof.
  unfold library_manager.main at 1.
  destruct (Json.as_library (load_library file0)) as [library0|];
    [|discriminate].
  intros H E. apply menu_loop_file in H. destruct H as [H _].
  specialize (H E). unfold library_manager.main. rewrite H.
  change (Some (Json.dumps (library st))) with (save_library (library st)).
  rewrite load_saved. cbn [library_manager.loop].
  change (save_library (library st)) with (Some (Json.dumps (library st))).
  rewrite <- H. now destruct st.
Qed.

Lemma menu_restart_witness :
  library_manager.main
    (file (mkSession [emma] (save_library [emma]))) [] =
  Some (mkSession [emma] (save_library [emma])).
Proof.
  apply (menu_restart None
           [library_manager.Add "Emma" "Austen" 1815 "Novel" "yes";
            library_manager.Exit]
           (mkSession [emma] (save_library [emma]))).
  - reflexivity.
  - right. left. reflexivity.
Defined.

(** ** The text of the file *)

Lemma plain_append (a b : string) :
  plain (a ++ b)%string = plain a && plain b.
Proof.
  induction a as [|c a IH]; [reflexivity|].
  simpl. rewrite IH. now rewrite andb_assoc.
Qed.

Lemma plain_escape_char (c : ascii) : plain (Json.escape_char c) = true.
Proof. destruct c as [[] [] [] [] [] [] [] []]; reflexivity. Qed.

Lemma plain_escape (s : string) : plain (Json.escape s) = true.
Proof.
  induction s as [|c s IH]; [reflexivity|].
  cbn [Json.escape]. now rewrite plain_append, plain_escape_char, IH.
Qed.

Lemma plain_uint (d : Decimal.uint) :
  plain (NilEmpty.string_of_uint d) = true.
Proof. induction d; simpl; auto. Qed.

Lemma plain_str_of_int (z : Z) : plain (Py.str_of_int z) = true.
Proof.
  destruct z as [|p|p]; [reflexivity | |]; unfold Py.str_of_int; simpl;
    unfold NilZero.string_of_uint;
    pose proof (plain_uint (Pos.to_uint p)) as H;
    destruct (Pos.to_uint p); try exact H; reflexivity.
Qed.

Lemma plain_spaces (n : nat) : plain (Json.spaces n) = true.
Proof. induction n; simpl; auto. Qed.

Lemma plain_dump_book (b : Book) : plain (Json.dump_book b) = true.
Proof.
  unfold Json.dump_book, Json.dump_str, Json.newline_indent.
  rewrite !plain_append, !plain_escape, !plain_spaces, plain_str_of_int.
  now destruct (Read b).
Qed.

(** X14: the file that [save_library] writes holds printable ASCII
    characters and line feeds only, whatever characters the books
    hold. *)
Theorem saved_file_is_ascii (books : Library) :
  exists content, save_library books = Some content /\ plain content = true.
Proof.
  eexists. split; [reflexivity|].
  destruct books as [|b books]; [reflexivity|].
  unfold Json.dumps, Json.newline_indent.
  rewrite !plain_append, plain_dump_book, !plain_spaces.
  cbn. rewrite andb_true_r.
  induction books as [|b' books IH]; [reflexivity|].
  cbn [Json.dump_more]. unfold Json.newline_indent.
  now rewrite !plain_append, plain_dump_book, !plain_spaces, IH.
Qed.

(** X15: [save_library] loses nothing: two lists of books are saved as
    the same text only when they are the same list. *)
Theorem save_library_injective (a b : Library) :
  save_library a = save_library b <-> a = b.
Proof.
  split; [|now intros ->].
  intros H. pose proof (load_saved a) as Ha. rewrite H, load_saved in Ha.
  now injection Ha.
Qed.

(** ** The order of [str] *)

Lemma ascii_compare_refl (c : ascii) : Ascii.compare c c = Eq.
Proof. apply N.compare_refl. Qed.

Lemma string_compare_refl (s : string) : String.compare s s = Eq.
Proof.
  induction s as [|c s IH]; [reflexivity|].
  simpl. now rewrite ascii_compare_refl.
Qed.

Lemma string_compare_trans (s t u : string) :
  String.compare s t = Lt -> String.compare t u = Lt ->
  String.compare s u = Lt.
Proof.
  revert t u. induction s as [|a s IH]; intros [|b t] [|c u]; simpl;
    try discriminate; try reflexivity.
  unfold Ascii.compare.
  destruct (N.compare_spec (N_of_ascii a) (N_of_ascii b)) as [E|L|G];
    destruct (N.compare_spec (N_of_ascii b) (N_of_ascii c)) as [E'|L'|G'];
    try discriminate; intros H H'.
  - rewrite E, E', N.compare_refl. now apply IH with t.
  - rewrite E. now apply N.compare_lt_iff in L' as ->.
  - rewrite <- E'. now apply N.compare_lt_iff in L as ->.
  - assert (X : (N_of_ascii a < N_of_ascii c)%N) by lia.
    now apply N.compare_lt_iff in X as ->.
Qed.

Lemma string_ltb_irrefl (s : string) : String.ltb s s = false.
Proof. unfold String.ltb. now rewrite string_compare_refl. Qed.

Lemma string_ltb_trans (s t u : string) :
  String.ltb s t = true -> String.ltb t u = true -> String.ltb s u = true.
Proof.
  unfold String.ltb. intros H H'.
  destruct (String.compare s t) eqn:E; try discriminate.
  destruct (String.compare t u) eqn:E'; try discriminate.
  now rewrite (string_compare_trans s t u).
Qed.

Lemma string_ltb_total (s t : string) :
  String.ltb s t = false -> String.ltb t s = false -> s = t.
Proof.
  unfold String.ltb. rewrite (String.compare_antisym t s).
  destruct (String.compare s t) eqn:E; try discriminate.
  intros _ _. now apply String.compare_eq_iff.
Qed.

Lemma string_ltb_cotrans (s t u : string) :
  String.ltb s t = false -> String.ltb t u = false ->
  String.ltb s u = false.
Proof.
  intros H H'. destruct (String.ltb s u) eqn:E; [|reflexivity].
  destruct (String.ltb u t) eqn:F.
  - now rewrite (string_ltb_trans s u t E F) in H.
  - rewrite (string_ltb_total t u H' F) in H. congruence.
Qed.

(** ** [sorted] *)

Section Sorting.

Variable sort_by : library_manager.sort_key.

Let lt := library_manager.key_lt sort_by.

Lemma key_lt_irrefl (x : Book) : lt x x = false.
Proof.
  subst lt. destruct sort_by; simpl;
    first [apply string_ltb_irrefl | apply Z.ltb_irrefl].
Qed.

Lemma key_lt_trans (x y z : Book) :
  lt x y = true -> lt y z = true -> lt x z = true.
Proof.
  subst lt. destruct sort_by; simpl;
    first [apply string_ltb_trans | rewrite !Z.ltb_lt; lia].
Qed.

Lemma key_lt_cotrans (x y z : Book) :
  lt x y = false -> lt y z = false -> lt x z = false.
Proof.
  subst lt. destruct sort_by; simpl;
    first [apply string_ltb_cotrans | rewrite !Z.ltb_ge; lia].
Qed.

Lemma key_lt_asym (x y : Book) : lt x y = true -> lt y x = false.
Proof.
  intros H. destruct (lt y x) eqn:E; [|reflexivity].
  pose proof (key_lt_trans x y x H E) as K.
  now rewrite key_lt_irrefl in K.
Qed.

Lemma insert_permutation (x : Book) (books : list Book) :
  Permutation (library_manager.insert sort_by x books) (x :: books).
Proof.
  induction books as [|y books IH]; simpl; [reflexivity|].
  fold lt. destruct (lt y x); [|reflexivity].
  rewrite IH. apply perm_swap.
Qed.

Lemma sorted_permutation (books : list Book) :
  Permutation (library_manager.sorted books sort_by) books.
Proof.
  unfold library_manager.sorted.
  induction books as [|x books IH]; simpl; [reflexivity|].
  rewrite insert_permutation. now constructor.
Qed.

Lemma insert_sorted (x : Book) (books : list Book) :
  StronglySorted (fun a b => lt b a = false) books ->
  StronglySorted (fun a b => lt b a = false)
                 (library_manager.insert sort_by x books).
Proof.
  induction 1 as [|y books Hs IH Hy]; simpl.
  - repeat constructor.
  - fold lt. destruct (lt y x) eqn:E.
    + constructor; [assumption|].
      eapply Permutation_Forall; [symmetry; apply insert_permutation|].
      constructor; [now apply key_lt_asym | assumption].
    + constructor; [now constructor|].
      constructor; [assumption|].
      rewrite Forall_forall in *. intros z Hz.
      apply key_lt_cotrans with y; [now apply Hy | assumption].
Qed.

Lemma sorted_sorted (books : list Book) :
  StronglySorted (fun a b => lt b a = false)
                 (library_manager.sorted books sort_by).
Proof.
  unfold library_manager.sorted.
  induction books as [|x books IH]; simpl; [constructor|].
  now apply insert_sorted.
Qed.

Lemma insert_filter (p : Book -> bool) (x : Book) (books : list Book) :
  (p x = true -> forall y, lt y x = true -> p y = false) ->
  filter p (library_manager.insert sort_by x books) = filter p (x :: books).
Proof.
  intros H. induction books as [|y books IH]; [reflexivity|].
  cbn [library_manager.insert]. fold lt.
  destruct (lt y x) eqn:E; [|reflexivity].
  cbn [filter] in *. rewrite IH.
  destruct (p x) eqn:Px; [|reflexivity].
  now rewrite (H eq_refl y E).
Qed.

End Sorting.

(** X16: the sorted view that [display_books] shows holds the books of
    the library, each as often as the library does, and no book of it
    comes before a book with a smaller key. *)
Theorem sorted_is_ordered (books : Library)
  (sort_by : library_manager.sort_key) :
  Permutation (library_manager.sorted books sort_by) books /\
  StronglySorted (fun x y => library_manager.key_lt sort_by y x = false)
                 (library_manager.sorted books sort_by).
Proof. split; [apply sorted_permutation | apply sorted_sorted]. Qed.

(** X17: the sort is stable: the books that share a key come in the order
    in which the library holds them. *)
Theorem sorted_is_stable (books : Library)
  (sort_by : library_manager.sort_key) (x : Book) :
  filter (same_key sort_by x) (library_manager.sorted books sort_by) =
  filter (same_key sort_by x) books.
Proof.
  unfold library_manager.sorted.
  induction books as [|b books IH]; [reflexivity|].
  cbn [fold_right]. rewrite insert_filter.
  - cbn [filter]. now rewrite IH.
  - unfold same_key. intros Hb y Hy.
    apply andb_true_iff in Hb. destruct Hb as [Hxb Hbx].
    apply negb_true_iff in Hxb, Hbx.
    destruct (library_manager.key_lt sort_by y x) eqn:E.
    + now rewrite andb_false_r.
    + now rewrite (key_lt_cotrans sort_by y x b E Hxb) in Hy.
Qed.

(** X18: a list that is in order is shown as it is, so that sorting what
    was sorted by the same key changes nothing. *)
Theorem sorted_twice (books : Library) (sort_by : library_manager.sort_key) :
  library_manager.sorted (library_manager.sorted books sort_by) sort_by =
  library_manager.sorted books sort_by.
Proof.
  pose proof (sorted_sorted sort_by books) as H. cbv zeta in H.
  induction H as [|x l Hl IH Hx]; [reflexivity|].
  unfold library_manager.sorted in *. cbn [fold_right]. rewrite IH.
  destruct l as [|y l]; [reflexivity|].
  cbn [library_manager.insert]. inversion Hx as [|? ? Hy _]; subst.
  now rewrite Hy.
Qed.

(** ** The table of [display_books] *)

Lemma rows_nth (books : list Book) :
  forall (start : Z) (i : nat) (book : Book),
  nth_error books i = Some book ->
  nth_error (library_manager.rows start books) i =
  Some (Py.str_of_int (start + Z.of_nat i), Title book, Author book,
        Py.str_of_int (Year book), Genre book,
        if Read book then "Read" else "Unread").
Proof.
  induction books as [|b books IH]; intros start [|i] book;
    cbn [nth_error library_manager.rows]; try discriminate.
  - intros [= ->]. now rewrite Z.add_0_r.
  - intros H. rewrite (IH _ _ _ H).
    now replace (start + 1 + Z.of_nat i) with (start + Z.of_nat (S i))
      by lia.
Qed.

Lemma rows_length (books : list Book) (start : Z) :
  List.length (library_manager.rows start books) = List.length books.
Proof.
  revert start. induction books as [|b books IH]; intros start;
    [reflexivity|]. simpl. now rewrite IH.
Qed.

(** X19: [display_books] says that the library is empty when it is,
    whatever the key; otherwise its table has one row per book, and the
    row at position [i] (from 0) is numbered [i + 1] and shows the book at
    that position of the sorted view, or of the library when no key is
    given. *)
Theorem display_books_table (book : Book) (books : list Book)
  (sort_by : option library_manager.sort_key) :
  library_manager.display_books [] sort_by = library_manager.LibraryIsEmpty /\
  exists table,
    library_manager.display_books (book :: books) sort_by =
    library_manager.Table table /\
    List.length table = S (List.length books) /\
    forall (i : nat) (shown : Book),
      nth_error (match sort_by with
                 | Some key => library_manager.sorted (book :: books) key
                 | None => book :: books
                 end) i = Some shown ->
      nth_error table i =
      Some (Py.str_of_int (Z.of_nat (S i)), Title shown, Author shown,
            Py.str_of_int (Year shown), Genre shown,
            if Read shown then "Read" else "Unread").
Proof.
  split; [reflexivity|]. eexists. split; [reflexivity|]. split.
  - rewrite rows_length. destruct sort_by as [key|]; [|reflexivity].
    apply (Permutation_length (sorted_permutation key (book :: books))).
  - intros i shown H. rewrite (rows_nth _ 1 i shown H).
    now replace (1 + Z.of_nat i) with (Z.of_nat (S i)) by lia.
Qed.

(** ** The loop of [main] at the console *)

Lemma ask_shorter (choices : option (list string)) (lines rest : list string)
  (value : string) :
  console.ask choices lines = Some (value, rest) ->
  (List.length rest < List.length lines)%nat.
Proof.
  induction lines as [|line lines IH]; [discriminate|].
  cbn [console.ask]. cbv zeta. destruct choices as [allowed|].
  - destruct (existsb _ allowed).
    + intros [= _ <-]. simpl. lia.
    + intros H. apply IH in H. simpl. lia.
  - intros [= _ <-]. simpl. lia.
Qed.

Lemma ask_allowed (allowed : list string) (lines rest : list string)
  (value : string) :
  console.ask (Some allowed) lines = Some (value, rest) ->
  existsb (String.eqb value) allowed = true.
Proof.
  induction lines as [|line lines IH]; [discriminate|].
  cbn [console.ask]. cbv zeta.
  destruct (existsb (String.eqb (Py.strip line)) allowed) eqn:E;
    [|exact IH].
  now intros [= <- _].
Qed.

Lemma get_valid_input_shorter {A : Type} (input_type : string -> option A)
  (lines rest : list string) (value : A) :
  console.get_valid_input input_type lines = Some (value, rest) ->
  (List.length rest < List.length lines)%nat.
Proof.
  induction lines as [|line lines IH]; [discriminate|].
  cbn [console.get_valid_input]. destruct (input_type (Py.strip line)).
  - intros [= _ <-]. simpl. lia.
  - intros H. apply IH in H. simpl. lia.
Qed.

(** Takes the prompts and the prints of a hypothesis [H] one by one. *)
Ltac asked H :=
  repeat match type of H with
    | match console.get_valid_input ?f ?l with _ => _ end = Some _ =>
        let E := fresh "E" in
        destruct (console.get_valid_input f l) as [[? ?]|] eqn:E;
        [apply get_valid_input_shorter in E | discriminate H]
    | match console.ask ?c ?l with _ => _ end = Some _ =>
        let E := fresh "E" in
        destruct (console.ask c l) as [[? ?]|] eqn:E;
        [apply ask_shorter in E | discriminate H]
    | context [if ?b then Some tt else None] =>
        destruct b; cbv iota in H; [|discriminate H]
    | match console.print_table ?r ?t with _ => _ end = Some _ =>
        destruct (console.print_table r t) as [[]|]; [|discriminate H]
    end.

Section Loop.

Variable renders : string -> bool.

Lemma add_book_shorter (library library' : Library) (msg : message)
  (lines rest : list string) :
  console.add_book library lines = Some (library', msg, rest) ->
  (List.length rest <= List.length lines)%nat.
Proof.
  unfold console.add_book. intros H. asked H. injection H as _ _ <-. lia.
Qed.

Lemma remove_book_shorter (library library' : Library) (msg : message)
  (lines rest : list string) :
  console.remove_book library lines = Some (library', msg, rest) ->
  (List.length rest <= List.length lines)%nat.
Proof.
  unfold console.remove_book. intros H. asked H.
  destruct (library_manager.remove_book library _) as [[? ?]|];
    [|discriminate H].
  injection H as _ _ <-. lia.
Qed.

Lemma edit_book_shorter (library library' : Library) (msg : message)
  (lines rest : list string) :
  console.edit_book renders library lines = Some (library', msg, rest) ->
  (List.length rest <= List.length lines)%nat.
Proof.
  unfold console.edit_book, console.prompted, console.markup.
  intros H. asked H.
  destruct (find (title_matches _) library).
  - asked H. destruct (library_manager.edit_book _ _ _ _ _ _ _).
    injection H as _ _ <-. lia.
  - injection H as _ _ <-. lia.
Qed.

Lemma search_book_shorter (library : Library) (msg : message)
  (lines rest : list string) :
  console.search_book renders library lines = Some (msg, rest) ->
  (List.length rest <= List.length lines)%nat.
Proof.
  unfold console.search_book. intros H. asked H.
  destruct (library_manager.search_book _ _ _); asked H;
    injection H as _ <-; lia.
Qed.

Lemma turn_shorter (choice : string) (st st' : session)
  (lines rest : list string) (out : console.output) (stop : bool) :
  console.turn renders choice st lines = Some (st', out, rest, stop) ->
  (List.length rest <= List.length lines)%nat.
Proof.
  unfold console.turn.
  repeat match goal with
         | |- (if (choice =? ?k)%string then _ else _) = _ -> _ =>
             destruct (choice =? k)%string
         end; intros H.
  - destruct (console.add_book _ _) as [[[? ?] ?]|] eqn:E; [|discriminate].
    apply add_book_shorter in E. injection H as _ _ <- _. exact E.
  - destruct (console.remove_book _ _) as [[[? ?] ?]|] eqn:E;
      [|discriminate].
    apply remove_book_shorter in E. injection H as _ _ <- _. exact E.
  - destruct (console.edit_book _ _ _) as [[[? ?] ?]|] eqn:E;
      [|discriminate].
    apply edit_book_shorter in E. injection H as _ _ <- _. exact E.
  - destruct (console.search_book _ _ _) as [[? ?]|] eqn:E;
      [|discriminate].
    apply search_book_shorter in E. injection H as _ _ <- _. exact E.
  - destruct (console.display_books _ _ _); [|discriminate].
    injection H as _ _ <- _. lia.
  - destruct (display_statistics _); [|discriminate].
    injection H as _ _ <- _. lia.
  - asked H. destruct (console.display_books _ _ _); [|discriminate].
    injection H as _ _ <- _. lia.
  - injection H as _ _ <- _. lia.
  - injection H as _ _ <- _. lia.
Qed.

(** Every turn reads a line: more turns than lines are never used up. *)
Lemma loop_finishes (turns : nat) :
  forall (st : session) (lines : list string),
  (List.length lines < turns)%nat ->
  console.loop renders turns st lines <> console.Unfinished.
Proof.
  induction turns as [|turns IH]; intros st lines H; [lia|].
  cbn [console.loop].
  destruct (console.ask _ lines) as [[choice rest]|] eqn:A; [|discriminate].
  apply ask_shorter in A.
  destruct (console.turn renders choice st rest)
    as [[[[st' out] rest'] stop]|] eqn:T; [|discriminate].
  apply turn_shorter in T. destruct stop; [discriminate|].
  specialize (IH st' rest').
  destruct (console.loop renders turns st' rest'); try discriminate.
  intros _. apply IH; [lia | reflexivity].
Qed.

Lemma menu_loop_cons (st : session) (c : library_manager.choice)
  (choices : list library_manager.choice) :
  c <> library_manager.Exit ->
  library_manager.loop st (c :: choices) =
  match library_manager.turn st c with
  | Some st' => library_manager.loop st' choices
  | None => None
  end.
Proof. destruct c; try reflexivity. now intros []. Qed.

Lemma menu_prints_cons (st : session) (c : library_manager.choice)
  (choices : list library_manager.choice) :
  c <> library_manager.Exit ->
  menu_prints st (c :: choices) =
  match printed_by st c, library_manager.turn st c with
  | Some out, Some st' => option_map (cons out) (menu_prints st' choices)
  | _, _ => None
  end.
Proof. destruct c; try reflexivity. now intros []. Qed.

Lemma display_books_printed (library : Library)
  (sort_by : option library_manager.sort_key)
  (table : library_manager.display) :
  console.display_books renders library sort_by = Some table ->
  table = library_manager.display_books library sort_by.
Proof.
  unfold console.display_books.
  destruct (library_manager.display_books library sort_by) as [|rows].
  - now intros [= <-].
  - destruct (console.print_table renders rows) as [[]|]; [|discriminate].
    now intros [= <-].
Qed.

(** Each turn at the console that does not end the loop does and prints
    what one choice of the menu does and prints. *)
Lemma turn_refines (choice : string) (st st' : session)
  (lines rest : list string) (out : console.output) :
  existsb (String.eqb choice) ["1"; "2"; "3"; "4"; "5"; "6"; "7"; "8"] =
  true ->
  console.turn renders choice st lines = Some (st', out, rest, false) ->
  exists c, c <> library_manager.Exit /\
            library_manager.turn st c = Some st' /\
            printed_by st c = Some out.
Proof.
  unfold console.turn. cbn [existsb].
  repeat match goal with
         | |- _ -> (if (choice =? ?k)%string then _ else _) = _ -> _ =>
             destruct (choice =? k)%string
         end; intros A H; try discriminate A.
  - destruct (console.add_book _ _) as [[[library' msg] rest']|] eqn:E;
      [|discriminate H].
    injection H as <- <- _. unfold console.add_book in E. asked E.
    match type of E with
    | context [library_manager.add_book _ ?t ?a ?y ?g ?ans] =>
        exists (library_manager.Add t a y g ans)
    end.
    split; [discriminate|]. cbn [library_manager.turn printed_by].
    destruct (library_manager.add_book _ _ _ _ _ _).
    now injection E as <- <- _.
  - destruct (console.remove_book _ _) as [[[library' msg] rest']|] eqn:E;
      [|discriminate H].
    injection H as <- <- _. unfold console.remove_book in E. asked E.
    match type of E with
    | context [library_manager.remove_book _ ?t] =>
        exists (library_manager.Remove t)
    end.
    split; [discriminate|]. cbn [library_manager.turn printed_by].
    destruct (library_manager.remove_book _ _) as [[? ?]|];
      [|discriminate E].
    now injection E as <- <- _.
  - destruct (console.edit_book _ _ _) as [[[library' msg] rest']|] eqn:E;
      [|discriminate H].
    injection H as <- <- _.
    unfold console.edit_book, console.prompted, console.markup in E.
    asked E.
    match type of E with
    | context [find (title_matches ?t) _] =>
        destruct (find (title_matches t) (library st)) eqn:F;
        [asked E;
         match type of E with
         | context [library_manager.edit_book _ _ ?nt ?na ?ny ?ng ?ans] =>
             exists (library_manager.Edit t nt na ny ng ans)
         end
        |exists (library_manager.Edit t "" "" 0 "" "")]
    end; (split; [discriminate|]); cbn [library_manager.turn printed_by].
    + destruct (library_manager.edit_book _ _ _ _ _ _ _).
      now injection E as <- <- _.
    + apply find_no_match in F.
      rewrite (menu_edit_missing _ "" "" 0 "" "" _ F).
      now injection E as <- <- _.
  - destruct (console.search_book _ _ _) as [[msg rest']|] eqn:E;
      [|discriminate].
    injection H as <- <- _. unfold console.search_book in E. asked E.
    match type of E with
    | context [library_manager.search_book _ ?c ?t] =>
        exists (library_manager.Search c t)
    end.
    split; [discriminate|]. split; [reflexivity|]. cbn [printed_by].
    destruct (library_manager.search_book _ _ _); asked E;
      now injection E as <- _.
  - destruct (console.display_books _ _ _) as [table|] eqn:E;
      [|discriminate].
    apply display_books_printed in E. subst table.
    exists library_manager.Display. split; [discriminate|].
    now injection H as <- <- _.
  - destruct (display_statistics _) eqn:E; [|discriminate].
    exists library_manager.Statistics. split; [discriminate|].
    cbn [library_manager.turn printed_by]. rewrite E.
    now injection H as <- <- _.
  - asked H.
    destruct (console.display_books _ _ _) as [table|] eqn:D;
      [|discriminate].
    apply display_books_printed in D. subst table.
    match type of H with
    | context [console.sort_key_of ?k] => exists (library_manager.Sort k)
    end.
    split; [discriminate|]. now injection H as <- <- _.
  - discriminate H.
Qed.

Lemma turn_exit (choice : string) (st st' : session)
  (lines rest : list string) (out : console.output) :
  console.turn renders choice st lines = Some (st', out, rest, true) ->
  st' = mkSession (library st) (save_library (library st)) /\
  out = console.Farewell.
Proof.
  unfold console.turn.
  repeat match goal with
         | |- (if (choice =? ?k)%string then _ else _) = _ -> _ =>
             destruct (choice =? k)%string
         end; intros H;
    repeat match type of H with
      | match ?x with _ => _ end = Some _ =>
          destruct x as [[[? ?] ?]|] || destruct x as [[? ?]|]
          || destruct x as [?|]; try discriminate H
      end;
    try discriminate H.
  now injection H as <- <- _.
Qed.

Lemma loop_refines (turns : nat) :
  forall (st st' : session) (lines : list string)
         (printed : list console.output),
  console.loop renders turns st lines = console.Goodbye st' printed ->
  exists choices,
    ~ In library_manager.Exit choices /\
    library_manager.loop st (choices ++ [library_manager.Exit]) = Some st' /\
    menu_prints st (choices ++ [library_manager.Exit]) = Some printed.
Proof.
  induction turns as [|turns IH]; intros st st' lines printed;
    [discriminate|].
  cbn [console.loop].
  destruct (console.ask _ lines) as [[choice rest]|] eqn:A; [|discriminate].
  apply ask_allowed in A.
  destruct (console.turn renders choice st rest)
    as [[[[st1 out] rest'] stop]|] eqn:T; [|discriminate].
  destruct stop.
  - intros [= <- <-]. apply turn_exit in T. destruct T as [-> ->].
    exists []. split; [intros []|now split].
  - destruct (console.loop renders turns st1 rest')
      as [st2 printed'| |] eqn:L; try discriminate.
    intros [= <- <-]. apply IH in L. destruct L as (choices & N & L & P).
    apply (turn_refines _ _ _ _ _ _ A) in T.
    destruct T as (c & Hc & T & O).
    exists (c :: choices). split; [|split].
    + intros [E | I]; [now destruct Hc | now apply N].
    + cbn [app]. rewrite menu_loop_cons by assumption. now rewrite T.
    + cbn [app]. rewrite menu_prints_cons by assumption.
      now rewrite O, T, P.
Qed.

End Loop.

(** X20: whatever lines are typed, whatever list [main] holds and
    whatever texts rich renders, the loop of [main] raises (the lines run
    out, a text does not render, or an operation raises) or ends by
    choice 8, and never goes on for ever on lines that end.  When it ends
    by choice 8 there are choices of the menu, none of them Exit, that
    followed by Exit lead from the same list to the same final state and
    print the same things in the same order; and the file then holds the
    serialization of the final list. *)
Theorem console_session (renders : string -> bool) (st0 : session)
  (lines : list string) :
  console.loop renders (S (List.length lines)) st0 lines = console.Raised \/
  exists st printed choices,
    console.loop renders (S (List.length lines)) st0 lines =
    console.Goodbye st printed /\
    ~ In library_manager.Exit choices /\
    library_manager.loop st0 (choices ++ [library_manager.Exit]) =
    Some st /\
    menu_prints st0 (choices ++ [library_manager.Exit]) = Some printed /\
    file st = Some (Json.dumps (library st)).
Proof.
  destruct (console.loop renders _ st0 lines) as [st printed| |] eqn:L.
  - right. destruct (loop_refines _ _ _ _ _ _ L) as (choices & N & M & P).
    exists st, printed, choices. repeat split; try assumption.
    apply (menu_loop_file _ _ _ M). apply in_or_app. right. now left.
  - now left.
  - exfalso. apply (loop_finishes _ _ _ _ (Nat.lt_succ_diag_r _) L).
Qed.
